(** * Routing-state inference and report-row reconciliation

    A shallow embedding of the scanning algorithms of [wo_updater.py]
    ([get_cc_date], [check_mrb_qty], [get_mrb_date], [in_quality],
    [get_yield_data], [get_yielded_date], [get_yield]) and of
    [po_notifier.py] ([get_next_process], [get_wo_nums],
    [merge_processing_data], [merge_materials_data]), followed by the
    properties established about them.

    Conventions of the embedding.
    - A quantity is the value [float(locale.atof(text))] of a field of the
      Abas response: a Python float, that is an IEEE 754 binary64 number
      ([float]).  Sums, differences and comparisons are the operations of
      binary64, with their rounding, their infinities and their NaN; sums
      are added in the order the code adds them.  The parsing of the text
      is not modelled: a field is read as the float it parses to.
    - Every HTTP request goes through [Abas.service], a record of response
      functions.  A request either answers or raises; the requests made are
      logged in order, so that call cardinality can be stated.
    - A Python exception is a value of [Py.exn]; a function that can raise
      returns in the monad [Abas.M]. *)

From Stdlib Require Import String Ascii List Bool Arith ZArith Floats Lia.
From Stdlib Require Import DecimalString.
Import ListNotations.
Local Open Scope nat_scope.
Local Open Scope string_scope.
Local Open Scope list_scope.

(* ===================================================================== *)
(** ** Python primitives *)
(* ===================================================================== *)

Module Py.

(** The exceptions the modelled code can raise.  [ServiceError] stands for
    any exception of [requests]/[json] while a response is fetched and
    decoded. *)
Inductive exn : Type :=
| IndexError
| UnboundLocalError
| AttributeError
| ServiceError.

Inductive result (A : Type) : Type :=
| Ok (a : A)
| Raise (e : exn).
Arguments Ok {A} a.
Arguments Raise {A} e.

(** [sub in s] *)
Fixpoint contains (sub s : string) : bool :=
  if String.prefix sub s then true
  else match s with
       | EmptyString => false
       | String _ s' => contains sub s'
       end.

(** [s.startswith(prefixes)] for a tuple of prefixes *)
Definition startswith (s : string) (prefixes : list string) : bool :=
  existsb (fun p => String.prefix p s) prefixes.

(** [s.replace(old, new)] for a non-empty [old]: every occurrence, left to
    right, without overlap.  [skip] counts the characters of a matched
    occurrence still to be dropped. *)
Fixpoint replace_from (old new : string) (skip : nat) (s : string) : string :=
  match s with
  | EmptyString => EmptyString
  | String c s' =>
      match skip with
      | S k => replace_from old new k s'
      | O => if String.prefix old s
             then String.append new (replace_from old new (String.length old - 1) s')
             else String c (replace_from old new 0 s')
      end
  end.

Definition replace (s old new : string) : string := replace_from old new 0 s.

(** [sep.join(l)] *)
Definition join (sep : string) (l : list string) : string := String.concat sep l.

(** [str(n)] for a non-negative integer *)
Definition str (n : nat) : string := NilEmpty.string_of_uint (Nat.to_uint n).

(** [s[-8:-3]] *)
Definition slice_m8_m3 (s : string) : string :=
  let n := String.length s in
  String.substring (n - 8) ((n - 3) - (n - 8)) s.

(** [s[k]] for [k >= 0], as a one-character string *)
Definition char_at (s : string) (k : nat) : result string :=
  match String.get k s with
  | Some c => Ok (String c EmptyString)
  | None => Raise IndexError
  end.

(** [l[k]] for [k >= 0] *)
Definition item {A : Type} (l : list A) (k : nat) : result A :=
  match nth_error l k with
  | Some a => Ok a
  | None => Raise IndexError
  end.

End Py.

Export Py.

(* ===================================================================== *)
(** ** The Abas service and the monad of requests *)
(* ===================================================================== *)

Module Abas.

(** One row of a production-center table
    ([tableFields]: order, art, artbez, frgmge, ycomplete, mrbqty,
    rverlust, vorgang).  Row 0 of a table is the header of the work
    order; rows [1..n-1] are its operations. *)
Record OperationStep : Type := mkStep {
  order : string;      (* work slip *)
  art : string;        (* product code *)
  artbez : string;     (* description *)
  frgmge : float;          (* quantity to be released *)
  ycomplete : float;       (* yield *)
  mrbqty : float;          (* MRB quantity *)
  rverlust : float;        (* scrap *)
  vorgang : string     (* database id of the operation *)
}.

(** One completion confirmation of the work order database. *)
Record Confirmation : Type := mkConfirmation {
  bumge : float;           (* confirmed yield *)
  ymrbqty : float;         (* confirmed MRB quantity *)
  verlust : float;         (* confirmed scrap *)
  abldat : string;     (* filing date *)
  stand : string       (* time stamp of the last change *)
}.

(** One line of a purchase order. *)
Record PoLine : Type := mkPoLine {
  ptext : string;
  artikel : string
}.

Inductive request : Type :=
| PostCompletionConfirmations (database_id : string)   (* CC_URL *)
| GetFiledConfirmations (work_slip : string)           (* WO_DB_URL?criteria=... *)
| GetConfirmation (database_id : string)               (* WO_DB_URL/id *)
| GetPurchaseOrder (database_id : string)              (* PO_URL + id *)
| PostProductionCenter (wo_num : string).              (* PROD_CENTER_URL *)

(** The responses of the service, one function per endpoint. *)
Record service : Type := mkService {
  (* rows (twonum, tdate) of the completion confirmations Infosystem *)
  completion_confirmations : string -> result (list (string * string));
  (* ids of the filed confirmations of a work slip, in filing order *)
  filed_confirmations : string -> result (list string);
  confirmation : string -> result Confirmation;
  purchase_order : string -> result (list PoLine);
  production_center : string -> result (list OperationStep)
}.

(** A computation: the requests it made, in order, and how it ended. *)
Definition M (A : Type) : Type := (list request * result A)%type.

Definition ret {A : Type} (a : A) : M A := ([], Ok a).

Definition raise {A : Type} (e : exn) : M A := ([], Raise e).

Definition bind {A B : Type} (m : M A) (f : A -> M B) : M B :=
  match m with
  | (l, Ok a) => let (l', r) := f a in (l ++ l', r)
  | (l, Raise e) => (l, Raise e)
  end.

(** [try: m except Exception: h] *)
Definition try_except {A : Type} (m : M A) (h : M A) : M A :=
  match m with
  | (l, Ok a) => (l, Ok a)
  | (l, Raise _) => let (l', r) := h in (l ++ l', r)
  end.

Definition lift {A : Type} (r : result A) : M A := ([], r).

Definition send {A : Type} (q : request) (response : result A) : M A :=
  ([q], response).

Definition requests {A : Type} (m : M A) : list request := fst m.
Definition outcome {A : Type} (m : M A) : result A := snd m.

End Abas.

Export Abas.

Notation "x <- m ;; k" := (bind m (fun x => k))
  (at level 61, m at next level, right associativity).
Notation "' p <- m ;; k" := (bind m (fun x => match x with p => k end))
  (at level 61, p pattern, m at next level, right associativity).

(* ===================================================================== *)
(** ** wo_updater.py *)
(* ===================================================================== *)

Module WoUpdater.

(** The locals of [in_quality] that live across iterations.
    [qty = None] is the string "N/A".  [prod_description] is assigned only
    inside the backward scan: [None] means the name is not bound yet. *)
Record locals : Type := mkLocals {
  in_qual : bool;
  qty : option float;
  date : string;
  progress : string;
  tentative : bool;
  qual_found : bool;
  mrb : bool;
  mrb_qty : float;
  mrb_date : string;
  prod_description : option string
}.

Definition initial : locals :=
  mkLocals false None "N/A" "N/A" false false false 0%float "N/A" None.

Definition set_prod_description (d : string) (st : locals) : locals :=
  mkLocals (in_qual st) (qty st) (date st) (progress st) (tentative st)
           (qual_found st) (mrb st) (mrb_qty st) (mrb_date st) (Some d).

Definition set_mrb (q : float) (d : string) (st : locals) : locals :=
  mkLocals (in_qual st) (qty st) (date st) (progress st) (tentative st)
           (qual_found st) true (mrb_qty st + q)%float d (prod_description st).

Definition set_in_quality (q : float) (p d : string) (st : locals) : locals :=
  mkLocals true (Some q) d p (tentative st)
           true (mrb st) (mrb_qty st) (mrb_date st) (prod_description st).

Definition set_tentative (st : locals) : locals :=
  mkLocals (in_qual st) (qty st) (date st) (progress st) true
           (qual_found st) (mrb st) (mrb_qty st) (mrb_date st)
           (prod_description st).

(** The value [get_yielded_date] returns: the bare string "ERROR" on an
    empty work slip, a pair otherwise.  [get_yield] indexes both with
    [[0]] and [[1]]. *)
Inductive yielded : Type :=
| YStr (s : string)
| YPair (latest_date timestamp : string).

Definition yielded_item (y : yielded) (k : nat) : result string :=
  match y with
  | YStr s => char_at s k
  | YPair d t => item [d; t] k
  end.

(** The tuple [get_yield] returns; the quantity [None] is "N/A". *)
Definition yield_tuple : Type :=
  (bool * string * string * option float * string * string)%type.

Definition no_yield : yield_tuple :=
  (false, "N/A", "N/A", None, "N/A", "N/A").

(** The tuple [in_quality] returns:
    [(qual_status, qty, date, progress, mrb, mrb_qty, mrb_date)]. *)
Definition quality_tuple : Type :=
  (nat * option float * string * string * bool * float * string)%type.

Definition NOT_IN_QUALITY : nat := 0.
Definition TENTATIVE : nat := 1.
Definition CONFIRMED : nat := 2.

Section Updater.

(** [constants.STARTING_STRINGS]; [constants.py] is not part of the
    sources, the tuple is a parameter. *)
Variable STARTING_STRINGS : list string.
Variable abas : service.

(** The loop of [get_cc_date].  [found] and [date] are one option: the
    date is bound exactly when [found] is true. *)
Fixpoint cc_date_scan (cc_table : list (string * string))
         (work_slip : string) (found : option string) : option string :=
  match cc_table with
  | [] => found
  | (twonum, tdate) :: rest =>
      if twonum =? work_slip
      then cc_date_scan rest work_slip (Some tdate)
      else match found with
           | Some _ => found                       (* break *)
           | None => cc_date_scan rest work_slip None
           end
  end.

Definition get_cc_date (database_id work_slip : string) : M string :=
  cc_table <- send (PostCompletionConfirmations database_id)
                   (completion_confirmations abas database_id) ;;
  match cc_date_scan cc_table work_slip None with
  | Some d => ret d
  | None => ret "No Completion Confirmation"
  end.

Definition check_mrb_qty (database_id : string) : M (bool * string) :=
  cc_data <- send (GetConfirmation database_id)
                  (confirmation abas database_id) ;;
  if (0 <? ymrbqty cc_data)%float
  then ret (true, stand cc_data)
  else ret (false, "N/A").

(** [for i in range(len(cc_metalist) - 1, -1, -1)]: the ids newest
    first. *)
Fixpoint mrb_date_scan (newest_first : list string) : M string :=
  match newest_first with
  | [] => ret "No Completion Confirmation"
  | database_id :: rest =>
      mrb_tuple <- check_mrb_qty database_id ;;
      if fst mrb_tuple then ret (snd mrb_tuple) else mrb_date_scan rest
  end.

Definition get_mrb_date (work_slip : string) : M string :=
  cc_metalist <- send (GetFiledConfirmations work_slip)
                      (filed_confirmations abas work_slip) ;;
  mrb_date_scan (rev cc_metalist).

(** [while j >= 1: ...; j -= 1] of [in_quality], entered with
    [j = i - 1].  Returning without a recursive call is the [break].  The
    two tests [this_yield <= curr_sum] and [this_yield > curr_sum] are
    separate statements of the code: both fail on a NaN. *)
Fixpoint backward_scan (prod_table : list OperationStep) (i : nat)
         (curr_sum : float) (j : nat) (st : locals) : M locals :=
  match j with
  | O => ret st
  | S j' =>
      row <- lift (item prod_table j) ;;
      let this_yield := ycomplete row in
      let product := art row in
      let st := set_prod_description (artbez row) st in
      if negb (artbez row =? "1st Off")
         && negb (contains "CMM" (artbez row))
         && startswith product STARTING_STRINGS
      then
        if (this_yield <=? curr_sum)%float
        then ret st
        else
          if (curr_sum <? this_yield)%float
          then
            header <- lift (item prod_table 0) ;;
            row_i <- lift (item prod_table i) ;;
            d <- get_cc_date (vorgang header) (order row_i) ;;
            backward_scan prod_table i curr_sum j'
              (set_in_quality (this_yield - curr_sum)%float
                 (str i ++ "/" ++ str (length prod_table - 1))%string d st)
          else backward_scan prod_table i curr_sum j' st
      else backward_scan prod_table i curr_sum j' st
  end.

(** The filter of the forward scan:
    [prod_table[j].artbez != "1st Off" and "CMM" not in prod_description
     and product.startswith(STARTING_STRINGS)],
    with the short circuit of [and]; reading [prod_description] while it
    is unbound raises. *)
Definition forward_filter (row : OperationStep) (st : locals) : M bool :=
  if artbez row =? "1st Off" then ret false
  else match prod_description st with
       | None => raise UnboundLocalError
       | Some d =>
           ret (negb (contains "CMM" d)
                && startswith (art row) STARTING_STRINGS)
       end.

(** [while j < len(prod_table): ...; j += 1] of [in_quality], entered
    with [j = i + 1]; [left] is [len(prod_table) - j]. *)
Fixpoint forward_scan (prod_table : list OperationStep) (curr_yield : float)
         (j left : nat) (st : locals) : M locals :=
  match left with
  | O => ret st
  | S left' =>
      row <- lift (item prod_table j) ;;
      let this_yield := ycomplete row in
      considered <- forward_filter row st ;;
      if considered && (curr_yield <? this_yield)%float
      then ret (set_tentative st)
      else forward_scan prod_table curr_yield (S j) left' st
  end.

(** The body of [if (description == "Inspection" or ...) and not
    qual_found]. *)
Definition inspect (prod_table : list OperationStep) (i : nat)
           (row : OperationStep) (st : locals) : M locals :=
  let curr_yield := ycomplete row in
  let curr_mrb := mrbqty row in
  let curr_scrap := rverlust row in
  let curr_sum := (curr_yield + curr_mrb + curr_scrap)%float in
  st <- backward_scan prod_table i curr_sum (i - 1) st ;;
  if in_qual st || (curr_yield =? 0)%float
  then forward_scan prod_table curr_yield (i + 1)
                    (length prod_table - (i + 1)) st
  else ret st.

(** [for i in range(1, len(prod_table))]; [left] is
    [len(prod_table) - i]. *)
Fixpoint quality_loop (prod_table : list OperationStep) (i left : nat)
         (st : locals) : M locals :=
  match left with
  | O => ret st
  | S left' =>
      row <- lift (item prod_table i) ;;
      let description := artbez row in
      if (0 <? mrbqty row)%float
      then
        header <- lift (item prod_table 0) ;;
        d <- try_except (get_mrb_date (order row)) (ret "No Date") ;;
        ret (set_mrb (mrbqty row) d st)
      else
        st <- (if ((description =? "Inspection")
                   || (description =? "Final Inspection"))
                  && negb (qual_found st)
               then inspect prod_table i row st
               else ret st) ;;
        quality_loop prod_table (S i) left' st
  end.

Definition in_quality (prod_table : list OperationStep) : M quality_tuple :=
  st <- quality_loop prod_table 1 (length prod_table - 1) initial ;;
  let qual_status :=
    if tentative st && in_qual st then TENTATIVE
    else if in_qual st then CONFIRMED
    else NOT_IN_QUALITY in
  ret (qual_status, qty st, date st, progress st,
       mrb st, mrb_qty st, mrb_date st).

Definition get_yield_data (database_id : string) : M (float * string * string) :=
  cc_data <- send (GetConfirmation database_id)
                  (confirmation abas database_id) ;;
  let total_qty := (bumge cc_data + ymrbqty cc_data + verlust cc_data)%float in
  let latest_date := abldat cc_data in
  let timestamp := slice_m8_m3 (stand cc_data) in
  ret (total_qty, latest_date, timestamp).

(** [for i in range(len(cc_metalist) - 1, -1, -1)] of
    [get_yielded_date]: the ids newest first. *)
Fixpoint yielded_scan (newest_first : list string) (sum_qty total_qty : float)
         (latest_date timestamp : string) : M (string * string) :=
  match newest_first with
  | [] => ret ("ERROR", "N/A")
  | database_id :: rest =>
      yt <- get_yield_data database_id ;;
      let total_qty := (total_qty + fst (fst yt))%float in
      let save := (latest_date =? "") && negb (fst (fst yt) =? 0)%float in
      let latest_date := if save then snd (fst yt) else latest_date in
      let timestamp := if save then snd yt else timestamp in
      if (total_qty =? sum_qty)%float
      then ret (latest_date, timestamp)
      else yielded_scan rest sum_qty total_qty latest_date timestamp
  end.

Definition get_yielded_date (work_slip : string) (sum_qty : float) : M yielded :=
  if work_slip =? "" then ret (YStr "ERROR")
  else
    cc_metalist <- send (GetFiledConfirmations work_slip)
                        (filed_confirmations abas work_slip) ;;
    p <- yielded_scan (rev cc_metalist) sum_qty 0%float "" "" ;;
    ret (YPair (fst p) (snd p)).

(** The next process after step [i] in [get_yield]: "None" for the last
    step, the step after a "1st Off" otherwise. *)
Definition next_process (prod_table : list OperationStep) (i : nat) : M string :=
  if (i =? length prod_table - 1)%nat then ret "None"
  else
    next <- lift (item prod_table (i + 1)) ;;
    if artbez next =? "1st Off"
    then (after <- lift (item prod_table (i + 2)) ;; ret (artbez after))
    else ret (artbez next).

(** [for i in range(len(prod_table) - 1, 0, -1)] of [get_yield]. *)
Fixpoint yield_scan (prod_table : list OperationStep) (date : string)
         (i : nat) : M yield_tuple :=
  match i with
  | O => ret no_yield
  | S i' =>
      row <- lift (item prod_table i) ;;
      if (frgmge row <=? 0)%float
      then
        let work_slip := order row in
        let row_sum := (ycomplete row + mrbqty row + rverlust row)%float in
        yt <- get_yielded_date work_slip row_sum ;;
        d <- lift (yielded_item yt 0) ;;
        if d =? date
        then
          let process := artbez row in
          let qty := ycomplete row in
          next_op <- next_process prod_table i ;;
          timestamp <- lift (yielded_item yt 1) ;;
          ret (true, work_slip, process, Some qty, next_op, timestamp)
        else ret no_yield
      else yield_scan prod_table date i'
  end.

Definition get_yield (prod_table : list OperationStep) (date : string)
  : M yield_tuple :=
  yield_scan prod_table date (length prod_table - 1).

End Updater.

End WoUpdater.

(* ===================================================================== *)
(** ** po_notifier.py *)
(* ===================================================================== *)

Module PoNotifier.

(** Column 6 of a row: the text of the journal, standing for the value
    [locale.atof] reads from it, or the float a merge has written. *)
Inductive QtyCell : Type :=
| QtyText (v : float)
| QtyFloat (v : float).

Definition qty_value (c : QtyCell) : float :=
  match c with QtyText v => v | QtyFloat v => v end.

(** [float(locale.atof(cell))]: [locale.atof] calls [replace] on its
    argument, which a float does not have. *)
Definition atof (c : QtyCell) : result float :=
  match c with
  | QtyText v => Ok v
  | QtyFloat _ => Raise AttributeError
  end.

(** A row of the processing table, the eight-element list built by
    [get_processing_data]; the field of column [k] is noted [[k]]. *)
Record Row : Type := mkRow {
  po : string;               (* [0] *)
  supplier : string;         (* [1] *)
  description : string;      (* [2] *)
  process : string;          (* [3] *)
  work_orders : string;      (* [4]: the purchase order id, then the work orders *)
  receipt_loc : string;      (* [5] *)
  qty : QtyCell;             (* [6] *)
  next_process : string      (* [7] *)
}.

Definition set_4 (v : string) (r : Row) : Row :=
  mkRow (po r) (supplier r) (description r) (process r) v
        (receipt_loc r) (qty r) (next_process r).

Definition set_6 (v : QtyCell) (r : Row) : Row :=
  mkRow (po r) (supplier r) (description r) (process r) (work_orders r)
        (receipt_loc r) v (next_process r).

Definition set_7 (v : string) (r : Row) : Row :=
  mkRow (po r) (supplier r) (description r) (process r) (work_orders r)
        (receipt_loc r) (qty r) v.

(** [l[k] = f(l[k])] on the store of rows; nothing out of range is ever
    written by the modelled code. *)
Fixpoint update (l : list Row) (k : nat) (f : Row -> Row) : list Row :=
  match l, k with
  | [], _ => []
  | r :: l', O => f r :: l'
  | r :: l', S k' => r :: update l' k' f
  end.

(** The locals of [merge_processing_data].  The rows are Python lists,
    shared between [data] and [merged_data]: [data] is the store of the
    row objects and [merged_data] holds references (indices) into it.
    [curr_loc] and [curr_qty] are unbound until the first row is read. *)
Record locals : Type := mkLocals {
  data : list Row;
  merged_data : list nat;
  prev_pn : string;
  prev_loc : string;
  prev_qty : float;
  prev_row : nat;
  merged : bool;
  curr_pn : string;
  curr_loc : option string;
  curr_qty : option float
}.

Definition bound {A : Type} (v : option A) : M A :=
  match v with
  | Some a => ret a
  | None => raise UnboundLocalError
  end.

Section Notifier.

Variable abas : service.

(** [for i in range(1, len(table))] of [get_next_process]; [left] is
    [len(table) - i]. *)
Fixpoint next_process_scan (table : list OperationStep) (process : string)
         (i left : nat) : M string :=
  match left with
  | O => ret "Not Found"
  | S left' =>
      row <- lift (item table i) ;;
      if art row =? process
      then
        if (i =? length table - 1)%nat then ret "None"
        else
          next <- lift (item table (i + 1)) ;;
          if artbez next =? "1st Off"
          then (after <- lift (item table (i + 2)) ;; ret (artbez after))
          else ret (artbez next)
      else next_process_scan table process (S i) left'
  end.

Definition get_next_process (wo_num process : string) : M string :=
  table <- send (PostProductionCenter wo_num)
                (production_center abas wo_num) ;;
  next_process_scan table process 1 (length table - 1).

Definition get_wo_nums (database_id process : string) : M (list string) :=
  table <- send (GetPurchaseOrder database_id)
                (purchase_order abas database_id) ;;
  ret (map (fun row => replace (ptext row) "WO " "")
           (filter (fun row => contains "WO" (ptext row)
                               && (artikel row =? process))
                   table)).

(** The [else] branch of the loop: the group that ends before row [i]
    is emitted. *)
Definition emit (i : nat) (st : locals) : M locals :=
  group <- lift (item (data st) (prev_row st)) ;;
  let merged_data := merged_data st ++ [prev_row st] in
  wo_list <- get_wo_nums (work_orders group) (process group) ;;
  let wo_nums := join ", " wo_list in
  let data := update (data st) (prev_row st) (set_4 wo_nums) in
  first_wo <- lift (item wo_list 0) ;;
  next <- get_next_process first_wo (process group) ;;
  let data := update data (prev_row st) (set_7 next) in
  let data := if merged st
              then update data (prev_row st) (set_6 (QtyFloat (prev_qty st)))
              else data in
  if negb (curr_pn st =? "No Value")
  then
    loc <- bound (curr_loc st) ;;
    q <- bound (curr_qty st) ;;
    ret (mkLocals data merged_data (curr_pn st) loc q i false
                  (curr_pn st) (curr_loc st) (curr_qty st))
  else
    ret (mkLocals data merged_data (prev_pn st) (prev_loc st) (prev_qty st)
                  (prev_row st) false
                  (curr_pn st) (curr_loc st) (curr_qty st)).

(** [for i in range(1, len(data) + 1)]; [left] is [len(data) + 1 - i]. *)
Fixpoint merge_loop (i left : nat) (st : locals) : M locals :=
  match left with
  | O => ret st
  | S left' =>
      st <- (if Nat.ltb i (length (data st))
             then
               row <- lift (item (data st) i) ;;
               q <- lift (atof (qty row)) ;;
               ret (mkLocals (data st) (merged_data st) (prev_pn st)
                             (prev_loc st) (prev_qty st) (prev_row st)
                             (merged st)
                             (process row) (Some (receipt_loc row)) (Some q))
             else ret st) ;;
      same <- (if Nat.ltb i (length (data st)) && (curr_pn st =? prev_pn st)
               then loc <- bound (curr_loc st) ;; ret (loc =? prev_loc st)
               else ret false) ;;
      st <- (if same
             then
               q <- bound (curr_qty st) ;;
               ret (mkLocals (data st) (merged_data st) (prev_pn st)
                             (prev_loc st) (prev_qty st + q)%float (prev_row st)
                             true
                             (curr_pn st) (curr_loc st) (curr_qty st))
             else emit i st) ;;
      merge_loop (S i) left' st
  end.

(** [return merged_data]: the row objects the references point to. *)
Fixpoint deref (store : list Row) (refs : list nat) : M (list Row) :=
  match refs with
  | [] => ret []
  | k :: refs' =>
      r <- lift (item store k) ;;
      rs <- deref store refs' ;;
      ret (r :: rs)
  end.

Definition merge_processing_data (rows : list Row) : M (list Row) :=
  first <- lift (item rows 0) ;;
  q <- lift (atof (qty first)) ;;
  st <- merge_loop 1 (length rows)
          (mkLocals rows [] (process first) (receipt_loc first) q 0 false
                    "No Value" None None) ;;
  deref (data st) (merged_data st).

End Notifier.

End PoNotifier.

(* ===================================================================== *)
(** ** po_notifier.py: the materials table *)
(* ===================================================================== *)

Module Materials.

Import PoNotifier.

(** A row of the materials table, the seven-element list built by
    [get_materials_data]; the field of column [k] is noted [[k]]. *)
Record MaterialRow : Type := mkMaterialRow {
  po : string;               (* [0] *)
  supplier : string;         (* [1] *)
  description : string;      (* [2] *)
  material : string;         (* [3] *)
  item_text : string;        (* [4] *)
  receipt_loc : string;      (* [5] *)
  qty : QtyCell              (* [6] *)
}.

Definition set_6 (v : QtyCell) (r : MaterialRow) : MaterialRow :=
  mkMaterialRow (po r) (supplier r) (description r) (material r)
                (item_text r) (receipt_loc r) v.

(** [l[k] = f(l[k])] on the store of rows. *)
Fixpoint update (l : list MaterialRow) (k : nat)
         (f : MaterialRow -> MaterialRow) : list MaterialRow :=
  match l, k with
  | [], _ => []
  | r :: l', O => f r :: l'
  | r :: l', S k' => r :: update l' k' f
  end.

(** The seven locals [prev_po .. prev_qty], and [curr_po .. curr_qty],
    that are read from a row together. *)
Record fields : Type := mkFields {
  f_po : string;
  f_supplier : string;
  f_desc : string;
  f_pn : string;
  f_item_text : string;
  f_loc : string;
  f_qty : float
}.

Definition set_f_qty (q : float) (f : fields) : fields :=
  mkFields (f_po f) (f_supplier f) (f_desc f) (f_pn f) (f_item_text f)
           (f_loc f) q.

(** [curr_po == prev_po and curr_supplier == prev_supplier and
     curr_desc == prev_desc and curr_pn == prev_pn
     and curr_item_text == prev_item_text and curr_loc == prev_loc] *)
Definition same_fields (curr prev : fields) : bool :=
  (f_po curr =? f_po prev)
  && (f_supplier curr =? f_supplier prev)
  && (f_desc curr =? f_desc prev)
  && (f_pn curr =? f_pn prev)
  && (f_item_text curr =? f_item_text prev)
  && (f_loc curr =? f_loc prev).

(** The seven assignments from row [data[i]]. *)
Definition read (r : MaterialRow) : M fields :=
  q <- lift (atof (qty r)) ;;
  ret (mkFields (po r) (supplier r) (description r) (material r)
                (item_text r) (receipt_loc r) q).

(** The locals of [merge_materials_data].  As in [merge_processing_data]
    the rows are shared between [data] and [merged_data]: [data] is the
    store of the row objects, [merged_data] holds references into it.
    The [curr_] locals are assigned together: [curr = None] is the state
    before the first assignment, in which [curr_po] is "No Value" and the
    others are unbound. *)
Record locals : Type := mkLocals {
  data : list MaterialRow;
  merged_data : list nat;
  prev : fields;
  prev_row : nat;
  merged : bool;
  curr : option fields
}.

Definition curr_po (st : locals) : string :=
  match curr st with
  | Some f => f_po f
  | None => "No Value"
  end.

(** The [else] branch of the loop. *)
Definition emit (i : nat) (st : locals) : M locals :=
  group <- lift (item (data st) (prev_row st)) ;;
  let merged_data := merged_data st ++ [prev_row st] in
  let data := if merged st
              then update (data st) (prev_row st)
                          (set_6 (QtyFloat (f_qty (prev st))))
              else data st in
  if negb (curr_po st =? "No Value")
  then
    match curr st with
    | Some f => ret (mkLocals data merged_data f i false (curr st))
    | None => raise UnboundLocalError
    end
  else ret (mkLocals data merged_data (prev st) (prev_row st) false (curr st)).

(** [for i in range(1, len(data) + 1)]; [left] is [len(data) + 1 - i]. *)
Fixpoint merge_loop (i left : nat) (st : locals) : M locals :=
  match left with
  | O => ret st
  | S left' =>
      st <- (if Nat.ltb i (length (data st))
             then
               row <- lift (item (data st) i) ;;
               f <- read row ;;
               ret (mkLocals (data st) (merged_data st) (prev st)
                             (prev_row st) (merged st) (Some f))
             else ret st) ;;
      let same :=
        Nat.ltb i (length (data st))
        && match curr st with
           | Some f => same_fields f (prev st)
           | None => false
           end in
      st <- (if same
             then
               match curr st with
               | Some f =>
                   ret (mkLocals (data st) (merged_data st)
                                 (set_f_qty (f_qty (prev st) + f_qty f)%float
                                            (prev st))
                                 (prev_row st) true (curr st))
               | None => raise UnboundLocalError
               end
             else emit i st) ;;
      merge_loop (S i) left' st
  end.

(** [return merged_data]: the row objects the references point to. *)
Fixpoint deref (store : list MaterialRow) (refs : list nat)
  : M (list MaterialRow) :=
  match refs with
  | [] => ret []
  | k :: refs' =>
      r <- lift (item store k) ;;
      rs <- deref store refs' ;;
      ret (r :: rs)
  end.

Definition merge_materials_data (rows : list MaterialRow)
  : M (list MaterialRow) :=
  first <- lift (item rows 0) ;;
  f <- read first ;;
  st <- merge_loop 1 (length rows) (mkLocals rows [] f 0 false None) ;;
  deref (data st) (merged_data st).

End Materials.

(* ===================================================================== *)
(** ** Sample data *)
(* ===================================================================== *)

Module Samples.

Import WoUpdater.

Definition header : OperationStep :=
  mkStep "WO1" "P-100" "Bracket" 0 0 0 0 "V1".

Definition operation (work_slip description : string)
           (released completed mrb scrap : float) : OperationStep :=
  mkStep work_slip "P-100" description released completed mrb scrap "".

Definition prefixes : list string := ["P-"; "Q-"].

Definition a_confirmation (q : float) (day : string) : Confirmation :=
  mkConfirmation q 0 0 day "2026-11-02 10:15:30".

(** A service that answers every request: the work slip "WS3" was
    confirmed on 11/02/26, every work slip has the two filed confirmations
    "c1" (10 pieces on 10/30/26) and "c2" (10 pieces on 11/02/26). *)
Definition answering : service :=
  mkService
    (fun _ => Ok [("WS2", "10/30/26"); ("WS3", "11/02/26")])
    (fun _ => Ok ["c1"; "c2"])
    (fun id => if id =? "c1" then Ok (a_confirmation 10 "10/30/26")
               else Ok (a_confirmation 10 "11/02/26"))
    (fun _ => Ok [mkPoLine "WO 4711" "ANODIZE"; mkPoLine "freight" "ANODIZE"])
    (fun _ => Ok [header;
                  operation "WS1" "Drilling" 0 10 0 0;
                  mkStep "WS2" "ANODIZE" "Anodizing" 0 10 0 0 "";
                  operation "WS3" "Inspection" 0 0 0 0]).

(** The same service with the completion confirmations Infosystem and the
    work order database out of order. *)
Definition confirmations_down : service :=
  mkService
    (fun _ => Raise ServiceError)
    (fun _ => Raise ServiceError)
    (fun _ => Raise ServiceError)
    (purchase_order answering)
    (production_center answering).

(** The same service with a purchase order that names no work order. *)
Definition no_work_order : service :=
  mkService
    (completion_confirmations answering)
    (filed_confirmations answering)
    (confirmation answering)
    (fun _ => Ok [mkPoLine "freight" "ANODIZE"; mkPoLine "WO 4711" "PLATING"])
    (production_center answering).

(** A confirmation of 10 pieces without a filing date, and the
    confirmation of 10 pieces filed before it. *)
Definition undated : Confirmation :=
  mkConfirmation 10 0 0 "" "2026-11-02 10:15:30".

Definition filed_earlier : Confirmation :=
  mkConfirmation 10 0 0 "10/30/26" "2026-10-30 08:00:45".

(** The service [answering] with that history: "c2", the newest, is the
    confirmation without date. *)
Definition undated_newest : service :=
  mkService
    (completion_confirmations answering)
    (filed_confirmations answering)
    (fun id => if id =? "c1" then Ok filed_earlier else Ok undated)
    (purchase_order answering)
    (production_center answering).

(** Two production steps before the inspection, both ahead of it. *)
Definition two_prior_steps : list OperationStep :=
  [header;
   operation "WS1" "Milling" 0 200 0 0;
   operation "WS2" "Drilling" 0 100 0 0;
   operation "WS3" "Inspection" 0 40 0 0].

(** A CMM step after the inspection reports more than the inspection. *)
Definition cmm_after_inspection : list OperationStep :=
  [header;
   operation "WS1" "Drilling" 0 100 0 0;
   operation "WS2" "Inspection" 0 40 0 0;
   operation "WS3" "CMM" 0 50 0 0].

(** A CMM step is the last step the backward scan reads; a production
    step after the inspection reports more than the inspection. *)
Definition cmm_before_inspection : list OperationStep :=
  [header;
   operation "WS0" "CMM" 0 100 0 0;
   operation "WS1" "Drilling" 0 100 0 0;
   operation "WS2" "Inspection" 0 40 0 0;
   operation "WS3" "Deburring" 0 50 0 0].

(** The inspection is the first step and nothing was inspected yet. *)
Definition inspection_first : list OperationStep :=
  [header;
   operation "WS1" "Inspection" 0 0 0 0;
   operation "WS2" "Deburring" 0 50 0 0].

Definition one_prior_step : list OperationStep :=
  [header;
   operation "WS1" "Drilling" 0 100 0 0;
   operation "WS2" "Inspection" 0 40 0 0].

Definition mrb_on_first_step : list OperationStep :=
  [header;
   operation "WS1" "Drilling" 0 100 3 0;
   operation "WS2" "Inspection" 0 40 0 0].

(** The last step still has 5 pieces to be released, the step before it
    is fully released. *)
Definition last_step_pending : list OperationStep :=
  [header;
   operation "WS1" "Drilling" 0 20 0 0;
   operation "WS2" "Inspection" 5 0 0 0].

Definition nothing_released : list OperationStep :=
  [header;
   operation "WS1" "Drilling" 2 20 0 0;
   operation "WS2" "Inspection" 5 0 0 0].

Definition first_off_last : list OperationStep :=
  [header;
   operation "WS1" "Drilling" 0 20 0 0;
   operation "WS2" "1st Off" 5 0 0 0].

Import PoNotifier.

Definition journal_row (purchase_order_id : string) (q : float) : Row :=
  mkRow "4500012" "Acme Plating" "Bracket" "ANODIZE" purchase_order_id
        "PROCESSING-1" (QtyText q) "-".

Definition one_group : list Row :=
  [journal_row "(7,4,0)" 10; journal_row "(7,4,0)" 5; journal_row "(7,4,0)" 3].

End Samples.

(* ===================================================================== *)
(** ** Vocabulary of the properties *)
(* ===================================================================== *)

Module Vocabulary.

Import WoUpdater PoNotifier.

(** A step the backward scan of [in_quality] compares with: not a first
    off, not a CMM step, and of an accepted product family. *)
Definition considered (STARTING_STRINGS : list string) (row : OperationStep)
  : bool :=
  negb (artbez row =? "1st Off")
  && negb (contains "CMM" (artbez row))
  && startswith (art row) STARTING_STRINGS.

(** Column 6 of a row of the journal is text; [get_processing_data] builds
    no other rows. *)
Definition is_text (r : Row) : bool :=
  match qty r with
  | QtyText _ => true
  | QtyFloat _ => false
  end.

(** The grouping key of [merge_processing_data]: columns 3 and 5. *)
Definition same_key (a b : Row) : bool :=
  (process b =? process a) && (receipt_loc b =? receipt_loc a).

(** The row emitted for a group: the first row of the group with the work
    orders and the next process filled in and, when rows were merged, the
    summed quantity. *)
Definition emitted (first : Row) (wo_list : list string) (next : string)
           (summed : option float) : Row :=
  mkRow (po first) (supplier first) (description first) (process first)
        (join ", " wo_list) (receipt_loc first)
        (match summed with Some q => QtyFloat q | None => qty first end)
        next.

(** The quantity [prev_qty] holds after the rows of a group were added to
    the quantity of its first row, in order. *)
Definition accumulated (start : float) (rows : list Row) : float :=
  fold_left (fun acc r => (acc + qty_value (qty r))%float) rows start.

(** A purchase order line that [get_wo_nums] keeps for a process. *)
Definition names_work_order (process : string) (line : PoLine) : bool :=
  contains "WO" (ptext line) && (artikel line =? process).

(** The quantity of a confirmation: yield, MRB quantity and scrap, added
    in this order. *)
Definition confirmed_quantity (c : Confirmation) : float :=
  (bumge c + ymrbqty c + verlust c)%float.

(** [total_qty != 0] on the quantity of a confirmation. *)
Definition nonzero (c : Confirmation) : bool :=
  negb (confirmed_quantity c =? 0)%float.

(** A confirmation that settles the date: its quantity is not zero and the
    text of its filing date is not empty. *)
Definition dated (c : Confirmation) : bool :=
  nonzero c && negb (abldat c =? "").

(** The running total after the given confirmations, added in the order
    they are read, from 0. *)
Definition running_total (cs : list Confirmation) : float :=
  fold_left (fun acc c => (acc + confirmed_quantity c)%float) cs 0%float.

(** The number of confirmations read, newest first, when the running
    total equals [row_sum] for the first time. *)
Definition first_reached (row_sum : float) (newest_first : list Confirmation)
  : option nat :=
  find (fun k => (running_total (firstn k newest_first) =? row_sum)%float)
       (seq 1 (length newest_first)).

(** The candidate date and time after the given confirmations were read,
    in order: those of the first confirmation with a quantity other than
    zero and a date that is not empty; while there is none, the empty date
    and the time of the last confirmation read with a quantity other than
    zero (the empty string when there is none either). *)
Definition candidate (cs : list Confirmation) : string * string :=
  match find dated cs with
  | Some c => (abldat c, slice_m8_m3 (stand c))
  | None =>
      ("", match find nonzero (rev cs) with
           | Some c => slice_m8_m3 (stand c)
           | None => ""
           end)
  end.

(** The confirmation resolution of a work slip: read the history backward
    while adding up the quantities; as soon as the running total equals
    [row_sum], answer with the candidate of the confirmations read; answer
    with the error sentinel when the total never equals [row_sum]. *)
Definition resolve (newest_first : list Confirmation) (row_sum : float)
  : string * string :=
  match first_reached row_sum newest_first with
  | Some k => candidate (firstn k newest_first)
  | None => ("ERROR", "N/A")
  end.

(** The confirmations read by that resolution. *)
Definition read_count (newest_first : list Confirmation) (row_sum : float)
  : nat :=
  match first_reached row_sum newest_first with
  | Some k => k
  | None => length newest_first
  end.

End Vocabulary.

(* ===================================================================== *)
(** ** Reference functions *)
(* ===================================================================== *)

Module Reference.

Import WoUpdater.

(** The process after a step, given the rows that come after it: "None"
    when it is the last row, the description of the next row, or of the row
    after a "1st Off"; reading past the end of the table raises. *)
Definition following (later : list OperationStep) : result string :=
  match later with
  | [] => Ok "None"
  | next :: rest =>
      if artbez next =? "1st Off"
      then match rest with
           | [] => Raise IndexError
           | after :: _ => Ok (artbez after)
           end
      else Ok (artbez next)
  end.

(** A quantity in quality: the difference [this_yield - curr_sum] of two
    floats with [this_yield > curr_sum]. *)
Definition excess (q : float) : Prop :=
  exists this_yield curr_sum : float,
    q = (this_yield - curr_sum)%float
    /\ (curr_sum <? this_yield)%float = true.

(** The states of [in_quality] as far as its result shows them: not in
    quality with every quality field at "N/A", or in quality with the
    excess of a step over the inspection as quantity; no MRB with the MRB
    fields at their defaults, or MRB with a quantity above zero. *)
Definition quality_fields_agree (t : quality_tuple) : Prop :=
  let '(qual_status, qty, date, progress, mrb, mrb_qty, mrb_date) := t in
  ((qual_status = NOT_IN_QUALITY /\ qty = None /\ date = "N/A"
    /\ progress = "N/A")
   \/ ((qual_status = TENTATIVE \/ qual_status = CONFIRMED)
       /\ exists q, qty = Some q /\ excess q))
  /\ ((mrb = false /\ mrb_qty = 0%float /\ mrb_date = "N/A")
      \/ (mrb = true /\ (0 <? mrb_qty)%float = true)).

(** The quality fields of the locals of [in_quality] agree. *)
Definition quality_part (st : locals) : Prop :=
  (in_qual st = false /\ qty st = None /\ date st = "N/A"
   /\ progress st = "N/A")
  \/ (in_qual st = true /\ exists q, qty st = Some q /\ excess q).

(** The MRB fields of the locals while no step with MRB quantity was
    met. *)
Definition no_mrb_yet (st : locals) : Prop :=
  mrb st = false /\ mrb_qty st = 0%float /\ mrb_date st = "N/A".

End Reference.

(* ===================================================================== *)
(** ** Reference functions of the merges *)
(* ===================================================================== *)

Module Merged.

Import PoNotifier.

(** *** The materials table *)

(** Column 6 of a materials row is text. *)
Definition material_is_text (r : Materials.MaterialRow) : bool :=
  match Materials.qty r with
  | QtyText _ => true
  | QtyFloat _ => false
  end.

(** The key of [merge_materials_data]: columns 0 to 5. *)
Definition same_material (g r : Materials.MaterialRow) : bool :=
  (Materials.po r =? Materials.po g)
  && (Materials.supplier r =? Materials.supplier g)
  && (Materials.description r =? Materials.description g)
  && (Materials.material r =? Materials.material g)
  && (Materials.item_text r =? Materials.item_text g)
  && (Materials.receipt_loc r =? Materials.receipt_loc g).

(** The row reported for a group: its first row, with the summed quantity
    when rows were merged into it. *)
Definition reported (g : Materials.MaterialRow) (acc : float) (m : bool)
  : Materials.MaterialRow :=
  if m then Materials.set_6 (QtyFloat acc) g else g.

(** Merging of adjacent rows with equal keys: [g] is the first row of the
    group being read, [acc] the quantity added up so far, [m] tells whether
    a row was merged into [g]. *)
Fixpoint merge_from (g : Materials.MaterialRow) (acc : float) (m : bool)
         (rows : list Materials.MaterialRow) : list Materials.MaterialRow :=
  match rows with
  | [] => [reported g acc m]
  | r :: rows' =>
      if same_material g r
      then merge_from g (acc + qty_value (Materials.qty r))%float true rows'
      else reported g acc m
           :: merge_from r (qty_value (Materials.qty r)) false rows'
  end.

Definition merge_adjacent (rows : list Materials.MaterialRow)
  : list Materials.MaterialRow :=
  match rows with
  | [] => []
  | g :: rows' => merge_from g (qty_value (Materials.qty g)) false rows'
  end.

(** The [prev_] locals while the group of [g] is read. *)
Definition fields_of (g : Materials.MaterialRow) (acc : float)
  : Materials.fields :=
  Materials.mkFields (Materials.po g) (Materials.supplier g)
                     (Materials.description g) (Materials.material g)
                     (Materials.item_text g) (Materials.receipt_loc g) acc.

(** *** The processing table *)

(** The enrichment of a group of [merge_processing_data]: the work orders
    of the purchase order line of the process, the next process of the
    first of them, and the row reported for the group. *)
Definition enrich (abas : service) (g : Row) (acc : float) (m : bool)
  : M Row :=
  wo_list <- get_wo_nums abas (work_orders g) (process g) ;;
  first_wo <- lift (item wo_list 0) ;;
  next <- get_next_process abas first_wo (process g) ;;
  ret (Vocabulary.emitted g wo_list next (if m then Some acc else None)).

(** Merging of adjacent rows with equal keys, each group enriched when it
    ends: [g] is the first row of the group being read, [acc] the quantity
    added up so far, [m] tells whether a row was merged into [g]. *)
Fixpoint reconcile_from (abas : service) (g : Row) (acc : float) (m : bool)
         (rows : list Row) : M (list Row) :=
  match rows with
  | [] => e <- enrich abas g acc m ;; ret [e]
  | r :: rows' =>
      if Vocabulary.same_key g r
      then reconcile_from abas g (acc + qty_value (qty r))%float true rows'
      else
        e <- enrich abas g acc m ;;
        es <- reconcile_from abas r (qty_value (qty r)) false rows' ;;
        ret (e :: es)
  end.

(** No two neighbouring rows have the same process and location. *)
Fixpoint distinct_keys (rows : list Row) : Prop :=
  match rows with
  | a :: (b :: _) as rows' =>
      Vocabulary.same_key a b = false /\ distinct_keys rows'
  | _ => True
  end.

(** Every row enriched on its own, in order. *)
Fixpoint enrich_each (abas : service) (rows : list Row) : M (list Row) :=
  match rows with
  | [] => ret []
  | r :: rows' =>
      e <- enrich abas r (qty_value (qty r)) false ;;
      es <- enrich_each abas rows' ;;
      ret (e :: es)
  end.

(** No two neighbouring rows have the same key. *)
Fixpoint distinct_neighbours (rows : list Materials.MaterialRow) : Prop :=
  match rows with
  | a :: (b :: _) as rows' =>
      same_material a b = false /\ distinct_neighbours rows'
  | _ => True
  end.

End Merged.

(* ===================================================================== *)
(** ** Properties *)
(* ===================================================================== *)

(** *** The monad *)

Lemma bind_ret {A B : Type} (a : A) (f : A -> M B) : bind (ret a) f = f a.
Proof. unfold bind, ret. destruct (f a); reflexivity. Qed.

Lemma bind_lift_ok {A B : Type} (a : A) (f : A -> M B) :
  bind (lift (Ok a)) f = f a.
Proof. unfold bind, lift. destruct (f a); reflexivity. Qed.

Lemma bind_raises {A B : Type} (l : list request) (e : exn) (f : A -> M B) :
  bind (l, Raise e) f = (l, Raise e).
Proof. reflexivity. Qed.

Lemma bind_answers {A B : Type} (l : list request) (a : A) (f : A -> M B) :
  bind (l, Ok a) f = (l ++ requests (f a), outcome (f a)).
Proof. unfold bind, requests, outcome. destruct (f a); reflexivity. Qed.

Lemma bind_outcome_raises {A B : Type} (m : M A) (e : exn) (f : A -> M B) :
  outcome m = Raise e -> outcome (bind m f) = Raise e.
Proof. destruct m as [l [a|e']]; simpl; intros H; [discriminate | congruence]. Qed.

Lemma item_nth_error {A : Type} (l : list A) (k : nat) (a : A) :
  nth_error l k = Some a -> item l k = Ok a.
Proof. unfold item. intros ->. reflexivity. Qed.

Lemma item_out_of_range {A : Type} (l : list A) (k : nat) :
  length l <= k -> item l k = Raise IndexError.
Proof.
  intros H. unfold item.
  rewrite (proj2 (nth_error_None l k) H). reflexivity.
Qed.

(** *** Quantities *)

(** Adding a float above zero to 0 gives that float: no rounding, and the
    sign of zero does not show. *)
Lemma zero_plus (x : float) : (0 <? x)%float = true -> (0 + x)%float = x.
Proof.
  intros H. apply Prim2SF_inj. rewrite add_spec.
  rewrite ltb_spec in H.
  change (Prim2SF 0) with (S754_zero false) in *.
  destruct (Prim2SF x) as [s | s | | s m e];
    try discriminate H; reflexivity.
Qed.

(** A float equal to 5 is not at or below zero. *)
Lemma five_pending (x : float) :
  (x =? 5)%float = true -> (x <=? 0)%float = false.
Proof.
  rewrite eqb_spec, leb_spec.
  change (Prim2SF 0) with (S754_zero false).
  remember (Prim2SF 5) as five eqn:Hfive. vm_compute in Hfive. subst five.
  destruct (Prim2SF x) as [s | s | | s m e]; try discriminate;
    destruct s; try discriminate; reflexivity.
Qed.

(** *** [in_quality]: the backward scan *)

Import WoUpdater.

(** The part of the scan that is as specified: steps that are not
    considered are passed, and at the first considered step that is not
    ahead of the inspection the scan ends; only [prod_description] has
    changed. *)
Lemma backward_scan_ends_when_not_ahead (STARTING_STRINGS : list string)
      (abas : service) (prod_table : list OperationStep) (i : nat)
      (curr_sum : float) (j : nat) (row : OperationStep) :
  1 <= j ->
  nth_error prod_table j = Some row ->
  Vocabulary.considered STARTING_STRINGS row = true ->
  (ycomplete row <=? curr_sum)%float = true ->
  forall (n : nat) (st : locals),
    j + n < length prod_table ->
    (forall k r, j < k <= j + n -> nth_error prod_table k = Some r ->
                 Vocabulary.considered STARTING_STRINGS r = false) ->
    backward_scan STARTING_STRINGS abas prod_table i curr_sum (j + n) st
    = ([], Ok (set_prod_description (artbez row) st)).
Proof.
  intros Hj Hrow Hconsidered Hbehind.
  induction n as [| n IH]; intros st Hlen Hpassed.
  - rewrite Nat.add_0_r. destruct j as [| j]; [lia |].
    cbn [backward_scan].
    rewrite (item_nth_error _ _ _ Hrow), bind_lift_ok.
    unfold Vocabulary.considered in Hconsidered. rewrite Hconsidered.
    rewrite Hbehind. reflexivity.
  - rewrite Nat.add_succ_r. cbn [backward_scan].
    destruct (nth_error prod_table (S (j + n))) as [r |] eqn:Hr;
      [| apply nth_error_None in Hr; lia].
    rewrite (item_nth_error _ _ _ Hr), bind_lift_ok.
    pose proof (Hpassed (S (j + n)) r ltac:(lia) Hr) as Hskip.
    unfold Vocabulary.considered in Hskip. rewrite Hskip.
    rewrite IH; [reflexivity | lia |].
    intros k r' Hk. apply Hpassed. lia.
Qed.

(** C1.  On the table [header, Milling 200, Drilling 100, Inspection 40] the
    first considered step before the inspection is Drilling, which is ahead
    of the inspection by 60.  The backward scan of [in_quality] does not
    stop there: it goes on to Milling, asks for the confirmation date a
    second time and reports 160. *)
Theorem backward_scan_goes_past_first_considered_step :
  in_quality Samples.prefixes Samples.answering Samples.two_prior_steps
  = ([PostCompletionConfirmations "V1"; PostCompletionConfirmations "V1"],
     Ok (CONFIRMED, Some 160%float, "11/02/26", "3/3", false, 0%float, "N/A")).
Proof. vm_compute. reflexivity. Qed.

(** *** [in_quality]: the forward scan *)

(** C2.  The forward scan tests "CMM" on [prod_description], the description
    the backward scan read last, not on the step it is looking at.  A CMM
    step after the inspection is therefore counted (first table: the order
    is reported tentative), a production step is ignored when the backward
    scan ended on a CMM step (second table: the order is reported
    confirmed), and when the backward scan read nothing the name is unbound
    (third table). *)
Theorem forward_scan_filters_on_stale_description :
  outcome (in_quality Samples.prefixes Samples.answering
                      Samples.cmm_after_inspection)
  = Ok (TENTATIVE, Some 60%float, "10/30/26", "2/3", false, 0%float, "N/A")
  /\ outcome (in_quality Samples.prefixes Samples.answering
                         Samples.cmm_before_inspection)
     = Ok (CONFIRMED, Some 60%float, "10/30/26", "3/4", false, 0%float, "N/A")
  /\ outcome (in_quality Samples.prefixes Samples.answering
                         Samples.inspection_first)
     = Raise UnboundLocalError.
Proof. repeat split; vm_compute; reflexivity. Qed.

(** *** [in_quality]: failing lookups *)

(** C4.  With the confirmation services out of order, the MRB date of a
    table with MRB quantity becomes "No Date" and the tuple is returned; on
    a table that is in quality the exception of [get_cc_date] leaves
    [in_quality]. *)
Theorem quality_date_lookup_is_not_guarded :
  outcome (in_quality Samples.prefixes Samples.confirmations_down
                      Samples.mrb_on_first_step)
  = Ok (NOT_IN_QUALITY, None, "N/A", "N/A", true, 3%float, "No Date")
  /\ in_quality Samples.prefixes Samples.confirmations_down
                Samples.one_prior_step
     = ([PostCompletionConfirmations "V1"], Raise ServiceError).
Proof. split; vm_compute; reflexivity. Qed.

(** *** [in_quality]: the inspection scenario *)

(** C5.  On [header, 1st Off (completed 0), Drilling (completed 100),
    Inspection (completed 40, mrb 0, scrap 0)], when the product code of
    Drilling starts with an accepted prefix and the confirmation date of
    the inspection's work slip is answered, [in_quality] reports status
    CONFIRMED, quantity 60 and progress "3/3", after that single lookup. *)
Theorem inspection_scenario_confirmed :
  forall (STARTING_STRINGS : list string) (abas : service)
         (header : OperationStep)
         (o1 a1 v1 o2 a2 v2 o3 a3 v3 : string) (f1 r1 f2 r2 f3 : float)
         (l : list request) (d : string),
    startswith a2 STARTING_STRINGS = true ->
    get_cc_date abas (vorgang header) o3 = (l, Ok d) ->
    in_quality STARTING_STRINGS abas
      [header;
       mkStep o1 a1 "1st Off" f1 0 0 r1 v1;
       mkStep o2 a2 "Drilling" f2 100 0 r2 v2;
       mkStep o3 a3 "Inspection" f3 40 0 0 v3]
    = (l, Ok (CONFIRMED, Some 60%float, d, "3/3", false, 0%float, "N/A")).
Proof.
  intros accepted abas header o1 a1 v1 o2 a2 v2 o3 a3 v3 f1 r1 f2 r2 f3 l d
         Hprefix Hdate.
  unfold in_quality.
  cbn -[get_cc_date startswith inspect].
  unfold inspect.
  cbn -[get_cc_date startswith].
  rewrite Hprefix.
  cbn -[get_cc_date startswith].
  rewrite Hdate.
  cbn -[get_cc_date startswith].
  rewrite !app_nil_r. reflexivity.
Qed.

Lemma inspection_scenario_confirmed_witness :
  in_quality Samples.prefixes Samples.answering
    [Samples.header;
     mkStep "WS1" "P-100" "1st Off" 0 0 0 0 "";
     mkStep "WS2" "P-100" "Drilling" 0 100 0 0 "";
     mkStep "WS3" "P-100" "Inspection" 0 40 0 0 ""]
  = ([PostCompletionConfirmations "V1"],
     Ok (CONFIRMED, Some 60%float, "11/02/26", "3/3", false, 0%float, "N/A")).
Proof.
  apply (inspection_scenario_confirmed
           Samples.prefixes Samples.answering Samples.header
           "WS1" "P-100" "" "WS2" "P-100" "" "WS3" "P-100" "" 0 0 0 0 0).
  - reflexivity.
  - reflexivity.
Defined.

(** *** [get_yield] *)

(** The backward scan of [get_yield] passes every step that still has a
    quantity to be released. *)
Lemma yield_scan_nothing_released (abas : service)
      (prod_table : list OperationStep) (date : string) :
  forall i : nat,
    i < length prod_table ->
    (forall k row, 1 <= k <= i -> nth_error prod_table k = Some row ->
                   (frgmge row <=? 0)%float = false) ->
    yield_scan abas prod_table date i = ([], Ok no_yield).
Proof.
  induction i as [| i IH]; intros Hlen Hpending.
  - reflexivity.
  - cbn [yield_scan].
    destruct (nth_error prod_table (S i)) as [row |] eqn:Hrow.
    + rewrite (item_nth_error _ _ _ Hrow), bind_lift_ok.
      rewrite (Hpending (S i) row ltac:(lia) Hrow).
      apply IH; [lia |].
      intros k r Hk. apply Hpending. lia.
    + apply nth_error_None in Hrow. lia.
Qed.

(** C3, as the code has it.  When the last step has 5 pieces to be released
    and no earlier step is fully released either, [get_yield] reports no
    match for every date, without any lookup. *)
Theorem get_yield_unmatched_when_nothing_released :
  forall (abas : service) (header : OperationStep)
         (earlier : list OperationStep) (last : OperationStep) (date : string),
    (frgmge last =? 5)%float = true ->
    Forall (fun row => (frgmge row <=? 0)%float = false) earlier ->
    get_yield abas (header :: earlier ++ [last]) date = ([], Ok no_yield).
Proof.
  intros abas header earlier last date Hlast Hearlier.
  unfold get_yield.
  apply yield_scan_nothing_released.
  - cbn [length]. lia.
  - intros k row Hk Hrow.
    destruct k as [| k]; [lia |]. cbn [nth_error] in Hrow.
    apply nth_error_In in Hrow. apply in_app_or in Hrow.
    destruct Hrow as [Hin | [-> | []]].
    + rewrite Forall_forall in Hearlier. apply Hearlier. exact Hin.
    + apply five_pending. exact Hlast.
Qed.

Lemma get_yield_unmatched_when_nothing_released_witness :
  get_yield Samples.answering Samples.nothing_released "11/02/26"
  = ([], Ok no_yield).
Proof.
  apply (get_yield_unmatched_when_nothing_released
           Samples.answering Samples.header
           [Samples.operation "WS1" "Drilling" 2 20 0 0]
           (Samples.operation "WS2" "Inspection" 5 0 0 0) "11/02/26").
  - reflexivity.
  - constructor; [reflexivity | constructor].
Defined.

(** C3, as stated, fails: the last step of this table has 5 pieces to be
    released, the step before it is fully released and was confirmed on the
    target date, and [get_yield] reports a match. *)
Lemma last_step_pending_is_matched :
  (frgmge (last Samples.last_step_pending Samples.header) =? 5)%float = true
  /\ outcome (get_yield Samples.answering Samples.last_step_pending "11/02/26")
     = Ok (true, "WS1", "Drilling", Some 20%float, "Inspection", "10:15").
Proof. split; vm_compute; reflexivity. Qed.

(** C9.  When the first fully released step from the end is the step before
    the last, the last step is a "1st Off" and the candidate date is the
    target date, [get_yield] reads row [i + 2] of a table of [i + 2] rows
    and raises [IndexError]. *)
Theorem get_yield_first_off_last_raises :
  forall (abas : service) (prod_table : list OperationStep) (i : nat)
         (row last : OperationStep) (date : string)
         (l : list request) (yt : yielded),
    1 <= i ->
    length prod_table = i + 2 ->
    nth_error prod_table i = Some row ->
    nth_error prod_table (i + 1) = Some last ->
    (frgmge row <=? 0)%float = true ->
    (frgmge last <=? 0)%float = false ->
    artbez last = "1st Off" ->
    get_yielded_date abas (order row)
                     (ycomplete row + mrbqty row + rverlust row)%float
    = (l, Ok yt) ->
    yielded_item yt 0 = Ok date ->
    get_yield abas prod_table date = (l, Raise IndexError).
Proof.
  intros abas prod_table i row last date l yt Hi Hlen Hrow Hlast
         Hreleased Hpending Hfirst Hyielded Hdate.
  unfold get_yield. rewrite Hlen.
  replace (i + 2 - 1) with (S i) by lia.
  replace (i + 1) with (S i) in Hlast by lia.
  cbn [yield_scan].
  rewrite (item_nth_error _ _ _ Hlast), bind_lift_ok.
  rewrite Hpending.
  destruct i as [| i]; [lia |].
  cbn [yield_scan].
  rewrite (item_nth_error _ _ _ Hrow), bind_lift_ok.
  rewrite Hreleased.
  rewrite Hyielded, bind_answers.
  rewrite Hdate, bind_lift_ok, String.eqb_refl.
  unfold next_process. rewrite Hlen.
  replace (S i =? S i + 2 - 1)%nat with false
    by (symmetry; apply Nat.eqb_neq; lia).
  replace (S i + 1) with (S (S i)) by lia.
  rewrite (item_nth_error _ _ _ Hlast), bind_lift_ok.
  rewrite Hfirst. cbn [String.eqb Ascii.eqb Bool.eqb].
  rewrite item_out_of_range by lia.
  cbn. rewrite app_nil_r. reflexivity.
Qed.

Lemma get_yield_first_off_last_raises_witness :
  get_yield Samples.answering Samples.first_off_last "11/02/26"
  = ([GetFiledConfirmations "WS1"; GetConfirmation "c2"; GetConfirmation "c1"],
     Raise IndexError).
Proof.
  apply (get_yield_first_off_last_raises
           Samples.answering Samples.first_off_last 1
           (Samples.operation "WS1" "Drilling" 0 20 0 0)
           (Samples.operation "WS2" "1st Off" 5 0 0 0) "11/02/26"
           [GetFiledConfirmations "WS1"; GetConfirmation "c2";
            GetConfirmation "c1"]
           (YPair "11/02/26" "10:15")).
  - lia.
  - reflexivity.
  - reflexivity.
  - reflexivity.
  - reflexivity.
  - reflexivity.
  - reflexivity.
  - reflexivity.
  - reflexivity.
Defined.

(** *** [in_quality]: MRB quantity ends the pass *)

Lemma try_except_ret {A : Type} (m : M A) (a : A) :
  try_except m (ret a)
  = (requests m, Ok match outcome m with Ok d => d | Raise _ => a end).
Proof.
  destruct m as [l [d | e]]; cbn; [| rewrite app_nil_r]; reflexivity.
Qed.

(** Steps without MRB quantity that are no inspection leave the locals of
    [in_quality] as they are. *)
Lemma quality_loop_passes (STARTING_STRINGS : list string) (abas : service)
      (prod_table : list OperationStep) (st : locals) :
  forall n i left : nat,
    i + n <= length prod_table ->
    (forall k row, i <= k < i + n -> nth_error prod_table k = Some row ->
                   (0 <? mrbqty row)%float = false
                   /\ artbez row <> "Inspection"
                   /\ artbez row <> "Final Inspection") ->
    quality_loop STARTING_STRINGS abas prod_table i (n + left) st
    = quality_loop STARTING_STRINGS abas prod_table (i + n) left st.
Proof.
  induction n as [| n IH]; intros i left Hlen Hplain.
  - rewrite Nat.add_0_r. reflexivity.
  - cbn [Nat.add quality_loop].
    destruct (nth_error prod_table i) as [row |] eqn:Hrow.
    + destruct (Hplain i row ltac:(lia) Hrow) as (Hmrb & Hinsp & Hfinal).
      rewrite (item_nth_error _ _ _ Hrow), bind_lift_ok.
      rewrite Hmrb.
      apply String.eqb_neq in Hinsp, Hfinal. rewrite Hinsp, Hfinal.
      cbn [orb andb]. rewrite bind_ret.
      replace (i + S n) with (S i + n) by lia.
      apply IH; [lia |].
      intros k r Hk. apply Hplain. lia.
    + apply nth_error_None in Hrow. lia.
Qed.

(** The first step with MRB quantity, when no inspection comes before it,
    decides the tuple: nothing of the table after it is read. *)
Lemma in_quality_stops_at_mrb (STARTING_STRINGS : list string) (abas : service)
      (prod_table : list OperationStep) (i : nat) (row : OperationStep) :
  1 <= i ->
  nth_error prod_table i = Some row ->
  (0 <? mrbqty row)%float = true ->
  (forall k r, 1 <= k < i -> nth_error prod_table k = Some r ->
               (0 <? mrbqty r)%float = false
               /\ artbez r <> "Inspection"
               /\ artbez r <> "Final Inspection") ->
  in_quality STARTING_STRINGS abas prod_table
  = (requests (get_mrb_date abas (order row)),
     Ok (NOT_IN_QUALITY, None, "N/A", "N/A", true, mrbqty row,
         match outcome (get_mrb_date abas (order row)) with
         | Ok d => d
         | Raise _ => "No Date"
         end)).
Proof.
  intros Hi Hrow Hmrb Hbefore.
  assert (Hlen : i < length prod_table)
    by (apply nth_error_Some; congruence).
  unfold in_quality.
  replace (length prod_table - 1) with ((i - 1) + (length prod_table - i)) by lia.
  rewrite quality_loop_passes.
  - replace (1 + (i - 1)) with i by lia.
    destruct (length prod_table - i) as [| left] eqn:Hleft; [lia |].
    cbn [quality_loop].
    rewrite (item_nth_error _ _ _ Hrow), bind_lift_ok.
    rewrite Hmrb.
    destruct (nth_error prod_table 0) as [header |] eqn:Hheader.
    + rewrite (item_nth_error _ _ _ Hheader), bind_lift_ok.
      rewrite try_except_ret.
      cbn [bind ret set_mrb initial mrb_qty in_qual qty date progress
           tentative mrb mrb_date andb app requests outcome fst snd].
      rewrite !app_nil_r, (zero_plus _ Hmrb). reflexivity.
    + apply nth_error_None in Hheader. lia.
  - lia.
  - intros k r Hk. apply Hbefore. lia.
Qed.

(** C6.  When step [i] is the only step with MRB quantity and comes before
    every Inspection or Final Inspection step, [in_quality] reports the MRB
    flag, the MRB quantity of step [i] and status NOT_IN_QUALITY, after the
    MRB date lookup alone; the steps after [i] are not read: any other
    steps in their place give the same tuple and the same requests. *)
Theorem sole_mrb_step_ends_classification :
  forall (STARTING_STRINGS : list string) (abas : service)
         (prod_table : list OperationStep) (i : nat) (row : OperationStep),
    1 <= i ->
    nth_error prod_table i = Some row ->
    (0 <? mrbqty row)%float = true ->
    (forall k r, 1 <= k -> k <> i -> nth_error prod_table k = Some r ->
                 (0 <? mrbqty r)%float = false) ->
    (forall k r, 1 <= k -> nth_error prod_table k = Some r ->
                 artbez r = "Inspection" \/ artbez r = "Final Inspection" ->
                 i < k) ->
    in_quality STARTING_STRINGS abas prod_table
    = (requests (get_mrb_date abas (order row)),
       Ok (NOT_IN_QUALITY, None, "N/A", "N/A", true, mrbqty row,
           match outcome (get_mrb_date abas (order row)) with
           | Ok d => d
           | Raise _ => "No Date"
           end))
    /\ forall later : list OperationStep,
        in_quality STARTING_STRINGS abas (firstn (S i) prod_table ++ later)
        = in_quality STARTING_STRINGS abas prod_table.
Proof.
  intros accepted abas prod_table i row Hi Hrow Hmrb Hsole Hfirst.
  assert (Hbefore : forall k r, 1 <= k < i -> nth_error prod_table k = Some r ->
                                (0 <? mrbqty r)%float = false
                                /\ artbez r <> "Inspection"
                                /\ artbez r <> "Final Inspection").
  { intros k r Hk Hr. repeat split.
    - apply (Hsole k r); [lia | lia | exact Hr].
    - intros Hd. specialize (Hfirst k r ltac:(lia) Hr (or_introl Hd)). lia.
    - intros Hd. specialize (Hfirst k r ltac:(lia) Hr (or_intror Hd)). lia. }
  assert (Hlen : i < length prod_table)
    by (apply nth_error_Some; congruence).
  assert (Hsame : forall later k, k <= i ->
            nth_error (firstn (S i) prod_table ++ later) k
            = nth_error prod_table k).
  { intros later k Hk.
    rewrite nth_error_app1 by (rewrite length_firstn; lia).
    rewrite nth_error_firstn.
    destruct (Nat.ltb_spec k (S i)); [reflexivity | lia]. }
  split.
  - apply (in_quality_stops_at_mrb accepted abas prod_table i row); assumption.
  - intros later.
    rewrite (in_quality_stops_at_mrb accepted abas prod_table i row) by assumption.
    apply (in_quality_stops_at_mrb accepted abas _ i row).
    + exact Hi.
    + rewrite Hsame by lia. exact Hrow.
    + exact Hmrb.
    + intros k r Hk Hr. rewrite Hsame in Hr by lia. apply (Hbefore k r Hk Hr).
Qed.

Lemma sole_mrb_step_ends_classification_witness :
  in_quality Samples.prefixes Samples.answering Samples.mrb_on_first_step
  = (requests (get_mrb_date Samples.answering
                 (order (Samples.operation "WS1" "Drilling" 0 100 3 0))),
     Ok (NOT_IN_QUALITY, None, "N/A", "N/A", true,
         mrbqty (Samples.operation "WS1" "Drilling" 0 100 3 0),
         match outcome (get_mrb_date Samples.answering
                          (order (Samples.operation "WS1" "Drilling" 0 100 3 0)))
         with
         | Ok d => d
         | Raise _ => "No Date"
         end))
  /\ forall later : list OperationStep,
      in_quality Samples.prefixes Samples.answering
                 (firstn 2 Samples.mrb_on_first_step ++ later)
      = in_quality Samples.prefixes Samples.answering Samples.mrb_on_first_step.
Proof.
  apply (sole_mrb_step_ends_classification
           Samples.prefixes Samples.answering Samples.mrb_on_first_step 1
           (Samples.operation "WS1" "Drilling" 0 100 3 0)).
  - lia.
  - reflexivity.
  - reflexivity.
  - intros k r Hk Hne Hr.
    destruct k as [| [| [| k]]]; [lia | lia | | destruct k; discriminate Hr].
    injection Hr as <-. reflexivity.
  - intros k r Hk Hr Hinsp.
    destruct k as [| [| k]]; [lia | | lia].
    injection Hr as <-. destruct Hinsp as [H | H]; discriminate H.
Defined.

(** *** [merge_processing_data]: a purchase order without work order *)

Import PoNotifier Vocabulary.

Lemma filter_none {A : Type} (f : A -> bool) (l : list A) :
  (forall x, In x l -> f x = false) -> filter f l = [].
Proof.
  induction l as [| a l IH]; intros Hnone; [reflexivity |].
  cbn [filter]. rewrite (Hnone a (or_introl eq_refl)).
  apply IH. intros x Hx. apply Hnone. right. exact Hx.
Qed.

Lemma get_wo_nums_none (abas : service) (database_id process : string)
      (lines : list PoLine) :
  purchase_order abas database_id = Ok lines ->
  (forall line, In line lines -> names_work_order process line = false) ->
  get_wo_nums abas database_id process
  = ([GetPurchaseOrder database_id], Ok []).
Proof.
  intros Hlines Hnone. unfold get_wo_nums, send. rewrite Hlines.
  unfold names_work_order in Hnone.
  cbn [bind]. rewrite (filter_none _ lines Hnone). reflexivity.
Qed.

(** Emitting a group whose purchase order names no work order raises: the
    first element of an empty list is read. *)
Lemma emit_raises (abas : service) (i : nat) (st : locals) (group : Row)
      (lines : list PoLine) :
  nth_error (data st) (prev_row st) = Some group ->
  purchase_order abas (work_orders group) = Ok lines ->
  (forall line, In line lines -> names_work_order (process group) line = false) ->
  emit abas i st = ([GetPurchaseOrder (work_orders group)], Raise IndexError).
Proof.
  intros Hgroup Hlines Hnone. unfold emit.
  rewrite (item_nth_error _ _ _ Hgroup), bind_lift_ok.
  rewrite (get_wo_nums_none _ _ _ _ Hlines Hnone).
  reflexivity.
Qed.

(** Until a group is emitted the loop leaves the rows and [prev_row]
    alone, so the first group emitted is the group of row 0. *)
Lemma merge_loop_raises (abas : service) (rows : list Row) (group : Row)
      (lines : list PoLine) :
  nth_error rows 0 = Some group ->
  Forall (fun r => is_text r = true) rows ->
  purchase_order abas (work_orders group) = Ok lines ->
  (forall line, In line lines -> names_work_order (process group) line = false) ->
  forall (left i : nat) (st : locals),
    data st = rows ->
    prev_row st = 0 ->
    1 <= left ->
    i + left = length rows + 1 ->
    outcome (merge_loop abas i left st) = Raise IndexError.
Proof.
  intros Hgroup Htext Hlines Hnone.
  induction left as [| left IH]; intros i st Hdata Hprev Hleft Hi; [lia |].
  destruct st as [d md ppn ploc pq prow m cpn cloc cq].
  cbn in Hdata, Hprev. subst d prow.
  cbn [merge_loop data].
  destruct (Nat.ltb_spec i (length rows)) as [Hlt | Hge].
  - destruct (nth_error rows i) as [row |] eqn:Hrow;
      [| apply nth_error_None in Hrow; lia].
    rewrite (item_nth_error _ _ _ Hrow), bind_lift_ok.
    assert (Hrow_text : is_text row = true).
    { rewrite Forall_forall in Htext. apply Htext.
      apply nth_error_In with i. exact Hrow. }
    unfold is_text in Hrow_text.
    destruct (qty row) as [v | v] eqn:Hqty; [| discriminate].
    cbn [atof]. rewrite bind_lift_ok, bind_ret.
    cbn [data curr_pn prev_pn curr_loc prev_loc curr_qty].
    destruct (Nat.ltb_spec i (length rows)) as [_ | Hge]; [| lia].
    cbn [andb].
    destruct (process row =? ppn).
    + cbn [bound]. rewrite !bind_ret.
      destruct (receipt_loc row =? ploc).
      * rewrite bind_ret. apply IH; [reflexivity | reflexivity | lia | lia].
      * apply bind_outcome_raises.
        erewrite emit_raises; [reflexivity | exact Hgroup | exact Hlines | exact Hnone].
    + rewrite bind_ret. apply bind_outcome_raises.
      erewrite emit_raises; [reflexivity | exact Hgroup | exact Hlines | exact Hnone].
  - rewrite bind_ret. cbn [data].
    destruct (Nat.ltb_spec i (length rows)) as [Hlt | _]; [lia |].
    cbn [andb]. rewrite bind_ret. apply bind_outcome_raises.
    erewrite emit_raises; [reflexivity | exact Hgroup | exact Hlines | exact Hnone].
Qed.

(** C10.  On rows of the journal, sorted or not, whose first group has a
    purchase order without a line that names a work order for the process,
    [merge_processing_data] raises [IndexError]: the emission reads
    [wo_list[0]] of an empty list. *)
Theorem merge_raises_without_work_order :
  forall (abas : service) (first : Row) (rest : list Row)
         (lines : list PoLine),
    Forall (fun r => is_text r = true) (first :: rest) ->
    purchase_order abas (work_orders first) = Ok lines ->
    (forall line, In line lines ->
                  names_work_order (process first) line = false) ->
    outcome (merge_processing_data abas (first :: rest)) = Raise IndexError.
Proof.
  intros abas first rest lines Htext Hlines Hnone.
  unfold merge_processing_data.
  cbn [item nth_error]. rewrite bind_lift_ok.
  assert (Hfirst : is_text first = true) by (inversion Htext; assumption).
  unfold is_text in Hfirst.
  destruct (qty first) as [v | v]; [| discriminate].
  cbn [atof]. rewrite bind_lift_ok.
  apply bind_outcome_raises.
  apply (merge_loop_raises abas (first :: rest) first lines);
    try assumption; try reflexivity; cbn [length]; lia.
Qed.

Lemma merge_raises_without_work_order_witness :
  outcome (merge_processing_data Samples.no_work_order Samples.one_group)
  = Raise IndexError.
Proof.
  apply (merge_raises_without_work_order
           Samples.no_work_order
           (Samples.journal_row "(7,4,0)" 10)
           [Samples.journal_row "(7,4,0)" 5; Samples.journal_row "(7,4,0)" 3]
           [mkPoLine "freight" "ANODIZE"; mkPoLine "WO 4711" "PLATING"]).
  - repeat constructor.
  - reflexivity.
  - intros line [<- | [<- | []]]; reflexivity.
Defined.

(** *** [merge_processing_data]: one group *)

Lemma bind_ret_r {A : Type} (m : M A) : bind m ret = m.
Proof.
  destruct m as [l [a | e]]; cbn; [rewrite app_nil_r |]; reflexivity.
Qed.

Lemma get_wo_nums_requests (abas : service) (database_id process : string) :
  requests (get_wo_nums abas database_id process)
  = [GetPurchaseOrder database_id].
Proof.
  unfold get_wo_nums, send.
  destruct (purchase_order abas database_id); reflexivity.
Qed.

Lemma next_process_scan_requests (table : list OperationStep)
      (process : string) :
  forall left i : nat,
    requests (next_process_scan table process i left) = [].
Proof.
  induction left as [| left IH]; intros i; [reflexivity |].
  cbn [next_process_scan].
  destruct (item table i) as [row | e]; [| reflexivity].
  rewrite bind_lift_ok.
  destruct (art row =? process); [| apply IH].
  destruct (i =? length table - 1)%nat; [reflexivity |].
  destruct (item table (i + 1)) as [next | e]; [| reflexivity].
  rewrite bind_lift_ok.
  destruct (artbez next =? "1st Off"); [| reflexivity].
  destruct (item table (i + 2)) as [after | e]; reflexivity.
Qed.

Lemma get_next_process_requests (abas : service) (wo_num process : string) :
  requests (get_next_process abas wo_num process)
  = [PostProductionCenter wo_num].
Proof.
  unfold get_next_process, send.
  destruct (production_center abas wo_num) as [table | e]; [| reflexivity].
  rewrite bind_answers. cbn [requests fst].
  rewrite next_process_scan_requests. reflexivity.
Qed.

Lemma update_head (first : Row) (rows : list Row) (f : Row -> Row) :
  update (first :: rows) 0 f = f first :: rows.
Proof. reflexivity. Qed.

(** The emission of the group of row 0, when both lookups answer. *)
Lemma emit_first_group (abas : service) (first : Row) (rows : list Row)
      (w : string) (ws : list string) (next : string)
      (i : nat) (pn loc : string) (acc : float) (m : bool)
      (cpn : string) (cloc : option string) (cq : option float) :
  outcome (get_wo_nums abas (work_orders first) (process first)) = Ok (w :: ws) ->
  outcome (get_next_process abas w (process first)) = Ok next ->
  (cpn <> "No Value" -> cloc <> None /\ cq <> None) ->
  exists st : locals,
    emit abas i (mkLocals (first :: rows) [] pn loc acc 0 m cpn cloc cq)
    = ([GetPurchaseOrder (work_orders first); PostProductionCenter w], Ok st)
    /\ data st
       = emitted first (w :: ws) next (if m then Some acc else None) :: rows
    /\ merged_data st = [0].
Proof.
  intros Hwo Hnext Hbound. unfold emit.
  cbn [data prev_row merged_data merged prev_qty curr_pn curr_loc curr_qty
       prev_pn prev_loc item nth_error app].
  rewrite bind_lift_ok.
  rewrite (surjective_pairing (get_wo_nums abas (work_orders first) (process first))).
  fold (requests (get_wo_nums abas (work_orders first) (process first))).
  fold (outcome (get_wo_nums abas (work_orders first) (process first))).
  rewrite get_wo_nums_requests, Hwo, bind_answers.
  cbn [item nth_error]. rewrite bind_lift_ok.
  rewrite (surjective_pairing (get_next_process abas w (process first))).
  fold (requests (get_next_process abas w (process first))).
  fold (outcome (get_next_process abas w (process first))).
  rewrite get_next_process_requests, Hnext, bind_answers.
  rewrite !update_head.
  destruct (cpn =? "No Value") eqn:Hcpn; cbn [negb].
  - eexists. split; [reflexivity |]. cbn [data merged_data].
    split; [| reflexivity].
    destruct m; rewrite ?update_head; reflexivity.
  - apply String.eqb_neq in Hcpn. destruct (Hbound Hcpn) as [Hloc Hq].
    destruct cloc as [cl |]; [| congruence].
    destruct cq as [q |]; [| congruence].
    cbn [bound]. rewrite !bind_ret.
    eexists. split; [reflexivity |]. cbn [data merged_data].
    split; [| reflexivity].
    destruct m; rewrite ?update_head; reflexivity.
Qed.

(** Rows with the key of row 0 are added to [prev_qty]; the pass after the
    last row emits the one group. *)
Lemma merge_loop_one_group (abas : service) (first : Row) (rows : list Row)
      (w : string) (ws : list string) (next : string) :
  outcome (get_wo_nums abas (work_orders first) (process first)) = Ok (w :: ws) ->
  outcome (get_next_process abas w (process first)) = Ok next ->
  forall (tail : list Row) (i : nat) (acc : float) (m : bool)
         (cpn : string) (cloc : option string) (cq : option float),
    length (first :: rows) = i + length tail ->
    (forall k, nth_error (first :: rows) (i + k) = nth_error tail k) ->
    Forall (fun r => is_text r = true) tail ->
    Forall (fun r => same_key first r = true) tail ->
    (cpn <> "No Value" -> cloc <> None /\ cq <> None) ->
    bind (merge_loop abas i (S (length tail))
            (mkLocals (first :: rows) [] (process first) (receipt_loc first)
                      acc 0 m cpn cloc cq))
         (fun st => deref (data st) (merged_data st))
    = ([GetPurchaseOrder (work_orders first); PostProductionCenter w],
       Ok [emitted first (w :: ws) next
             (if m || negb (length tail =? 0)%nat
              then Some (accumulated acc tail) else None)]).
Proof.
  intros Hwo Hnext.
  induction tail as [| r tail IH];
    intros i acc m cpn cloc cq Hlen Hnth Htext Hkey Hbound.
  - cbn [length] in *. cbn [merge_loop data].
    destruct (Nat.ltb_spec i (length (first :: rows))) as [Hlt | _]; [cbn [length] in *; lia |].
    rewrite bind_ret. cbn [data andb].
    destruct (Nat.ltb_spec i (length (first :: rows))) as [Hlt | _]; [cbn [length] in *; lia |].
    cbn [andb]. rewrite bind_ret.
    destruct (emit_first_group abas first rows w ws next i
                (process first) (receipt_loc first) acc m cpn cloc cq
                Hwo Hnext Hbound) as (st & Hemit & Hdata & Hmerged).
    rewrite Hemit. cbn [bind ret app].
    rewrite Hdata, Hmerged.
    cbn. rewrite orb_false_r. destruct m; reflexivity.
  - cbn [merge_loop data].
    pose proof (Hnth 0) as Hr. rewrite Nat.add_0_r in Hr. cbn [nth_error] in Hr.
    destruct (Nat.ltb_spec i (length (first :: rows))) as [_ | Hge]; [| cbn [length] in *; lia].
    rewrite (item_nth_error _ _ _ Hr), bind_lift_ok.
    inversion Htext as [| ? ? Hr_text Htext']; subst.
    inversion Hkey as [| ? ? Hr_key Hkey']; subst.
    unfold is_text in Hr_text.
    destruct (qty r) as [v | v] eqn:Hqty; [| discriminate].
    unfold same_key in Hr_key. apply andb_prop in Hr_key.
    destruct Hr_key as [Hpn Hloc].
    cbn [atof]. rewrite bind_lift_ok, bind_ret.
    cbn [data curr_pn prev_pn curr_loc prev_loc curr_qty prev_qty
         merged_data prev_row merged].
    destruct (Nat.ltb_spec i (length (first :: rows))) as [_ | Hge]; [| cbn [length] in *; lia].
    rewrite Hpn. cbn [andb bound]. rewrite !bind_ret, Hloc, bind_ret.
    cbn [length].
    rewrite (IH (S i)).
    + rewrite orb_true_r. cbn [orb].
      unfold accumulated. cbn [fold_left]. rewrite Hqty. reflexivity.
    + cbn [length] in *. lia.
    + intros k. specialize (Hnth (S k)).
      rewrite Nat.add_succ_r in Hnth. exact Hnth.
    + exact Htext'.
    + exact Hkey'.
    + intros _. split; discriminate.
Qed.

(** C7, as the code has it.  On a non-empty sequence of journal rows that
    all have the key of the first row, when the two enrichment lookups on
    the first row answer, the first of them with at least one work order,
    [merge_processing_data] returns exactly one row, the first row with the
    work orders and the next process filled in; the two lookups are
    requested once each, for the first row.  The quantity of that row is
    the float sum of the quantities of the rows, added in the order of the
    rows to the quantity of the first; when the first row is the only row,
    the quantity is left as the text it was. *)
Theorem merge_one_group :
  forall (abas : service) (first : Row) (rest : list Row)
         (w : string) (ws : list string) (next : string),
    Forall (fun r => is_text r = true) (first :: rest) ->
    Forall (fun r => same_key first r = true) rest ->
    outcome (get_wo_nums abas (work_orders first) (process first))
    = Ok (w :: ws) ->
    outcome (get_next_process abas w (process first)) = Ok next ->
    merge_processing_data abas (first :: rest)
    = ([GetPurchaseOrder (work_orders first); PostProductionCenter w],
       Ok [emitted first (w :: ws) next
             (match rest with
              | [] => None
              | _ :: _ => Some (accumulated (qty_value (qty first)) rest)
              end)]).
Proof.
  intros abas first rest w ws next Htext Hkey Hwo Hnext.
  unfold merge_processing_data.
  cbn [item nth_error]. rewrite bind_lift_ok.
  inversion Htext as [| ? ? Hfirst Hrest]; subst.
  unfold is_text in Hfirst.
  destruct (qty first) as [v | v] eqn:Hqty; [| discriminate].
  cbn [atof]. rewrite bind_lift_ok.
  cbn [length].
  rewrite (merge_loop_one_group abas first rest w ws next Hwo Hnext rest 1).
  - cbn [orb qty_value]. destruct rest; reflexivity.
  - reflexivity.
  - intros k. reflexivity.
  - exact Hrest.
  - exact Hkey.
  - intros H. congruence.
Qed.

Lemma merge_one_group_witness :
  merge_processing_data Samples.answering Samples.one_group
  = ([GetPurchaseOrder
        (work_orders (Samples.journal_row "(7,4,0)" 10));
      PostProductionCenter "4711"],
     Ok [emitted (Samples.journal_row "(7,4,0)" 10) ["4711"] "Inspection"
           (Some (accumulated
                    (qty_value (qty (Samples.journal_row "(7,4,0)" 10)))
                    [Samples.journal_row "(7,4,0)" 5;
                     Samples.journal_row "(7,4,0)" 3]))]).
Proof.
  apply (merge_one_group
           Samples.answering (Samples.journal_row "(7,4,0)" 10)
           [Samples.journal_row "(7,4,0)" 5; Samples.journal_row "(7,4,0)" 3]
           "4711" [] "Inspection").
  - repeat constructor.
  - repeat constructor.
  - reflexivity.
  - reflexivity.
Defined.

(** C7, as stated, fails: these two journal rows have the same key, the
    purchase order of the first names no work order for its process, and
    [merge_processing_data] returns no row: it raises [IndexError] after
    the first lookup, and the second lookup is never requested. *)
Lemma one_group_without_work_order_returns_no_row :
  same_key (Samples.journal_row "(7,4,0)" 10)
           (Samples.journal_row "(7,4,0)" 5) = true
  /\ merge_processing_data Samples.no_work_order
       [Samples.journal_row "(7,4,0)" 10; Samples.journal_row "(7,4,0)" 5]
     = ([GetPurchaseOrder "(7,4,0)"], Raise IndexError).
Proof. split; vm_compute; reflexivity. Qed.

(** *** [get_yielded_date] *)

Lemma get_yield_data_answers (abas : service) (database_id : string)
      (c : Confirmation) :
  confirmation abas database_id = Ok c ->
  get_yield_data abas database_id
  = ([GetConfirmation database_id],
     Ok (confirmed_quantity c, abldat c, slice_m8_m3 (stand c))).
Proof. unfold get_yield_data, send. intros ->. reflexivity. Qed.

Lemma running_total_snoc (seen : list Confirmation) (c : Confirmation) :
  running_total (seen ++ [c])
  = (running_total seen + confirmed_quantity c)%float.
Proof. unfold running_total. rewrite fold_left_app. reflexivity. Qed.

Lemma firstn_snoc {A : Type} (seen : list A) (c : A) (rest : list A) :
  firstn (S (length seen)) (seen ++ c :: rest) = seen ++ [c].
Proof.
  induction seen as [| a seen IH]; [reflexivity |].
  cbn [length app firstn] in *. rewrite IH. reflexivity.
Qed.

Lemma find_snoc {A : Type} (f : A -> bool) (seen : list A) (c : A) :
  find f (seen ++ [c])
  = match find f seen with
    | Some a => Some a
    | None => if f c then Some c else None
    end.
Proof.
  induction seen as [| a seen IH]; [reflexivity |].
  cbn [app find]. destruct (f a); [reflexivity | exact IH].
Qed.

(** The date and time kept by the scan after one more confirmation: they
    are overwritten by every confirmation with a quantity, as long as the
    date kept is empty. *)
Lemma candidate_snoc (seen : list Confirmation) (c : Confirmation) :
  candidate (seen ++ [c])
  = if (fst (candidate seen) =? "") && nonzero c
    then (abldat c, slice_m8_m3 (stand c))
    else candidate seen.
Proof.
  unfold candidate. rewrite find_snoc, rev_unit. cbn [find].
  destruct (find dated seen) as [a |] eqn:Hfound.
  - apply find_some in Hfound. destruct Hfound as [_ Ha].
    unfold dated in Ha. apply andb_prop in Ha. destruct Ha as [_ Ha].
    cbn [fst]. destruct (abldat a =? ""); [discriminate Ha | reflexivity].
  - cbn [fst]. cbn [String.eqb andb]. unfold dated.
    destruct (nonzero c); cbn [andb]; [| reflexivity].
    destruct (abldat c =? "") eqn:Hdate; cbn [negb]; [| reflexivity].
    apply String.eqb_eq in Hdate. rewrite Hdate. reflexivity.
Qed.

(** The scan of [get_yielded_date] after the confirmations [seen], with
    the confirmations [rest] still to read. *)
Lemma yielded_scan_resolves (abas : service) (sum_qty : float) :
  forall (ids : list string) (rest seen : list Confirmation),
    Forall2 (fun id c => confirmation abas id = Ok c) ids rest ->
    let reached :=
      find (fun k => (running_total (firstn k (seen ++ rest)) =? sum_qty)%float)
           (seq (S (length seen)) (length rest)) in
    yielded_scan abas ids sum_qty (running_total seen)
                 (fst (candidate seen)) (snd (candidate seen))
    = (map GetConfirmation
           (firstn match reached with
                   | Some k => k - length seen
                   | None => length rest
                   end ids),
       Ok match reached with
          | Some k => candidate (firstn k (seen ++ rest))
          | None => ("ERROR", "N/A")
          end).
Proof.
  induction ids as [| id ids IH]; intros rest seen Hids reached;
    inversion Hids as [| ? c ? rest' Hc Hids']; subst.
  - reflexivity.
  - cbn [yielded_scan].
    rewrite (get_yield_data_answers _ _ _ Hc), bind_answers.
    cbn [fst snd].
    rewrite <- running_total_snoc.
    assert (Hdate :
              (if (fst (candidate seen) =? "")
                  && negb (confirmed_quantity c =? 0)%float
               then abldat c else fst (candidate seen))
              = fst (candidate (seen ++ [c]))).
    { rewrite (candidate_snoc seen c). unfold nonzero.
      destruct ((fst (candidate seen) =? "")
                && negb (confirmed_quantity c =? 0)%float); reflexivity. }
    assert (Htime :
              (if (fst (candidate seen) =? "")
                  && negb (confirmed_quantity c =? 0)%float
               then slice_m8_m3 (stand c) else snd (candidate seen))
              = snd (candidate (seen ++ [c]))).
    { rewrite (candidate_snoc seen c). unfold nonzero.
      destruct ((fst (candidate seen) =? "")
                && negb (confirmed_quantity c =? 0)%float); reflexivity. }
    rewrite Hdate, Htime.
    subst reached. cbn [length seq find].
    rewrite firstn_snoc.
    destruct (running_total (seen ++ [c]) =? sum_qty)%float.
    + cbv beta iota. rewrite firstn_snoc.
      replace (S (length seen) - length seen) with 1 by lia.
      cbn [firstn map requests outcome fst snd ret app].
      rewrite <- surjective_pairing. reflexivity.
    + specialize (IH rest' (seen ++ [c]) Hids').
      cbn zeta in IH. rewrite IH.
      rewrite <- app_assoc, length_app. cbn [app length].
      rewrite Nat.add_1_r.
      destruct (find _ (seq (S (S (length seen))) (length rest'))) as [k |] eqn:Hfind.
      * apply find_some in Hfind. destruct Hfind as [Hin _].
        apply in_seq in Hin.
        replace (k - length seen) with (S (k - S (length seen))) by lia.
        reflexivity.
      * reflexivity.
Qed.

(** C8, as the code has it.  For a work slip whose filed confirmations are
    all answered, [get_yielded_date] reads the history backward, newest
    first, adding up the quantities as floats, in that order, from 0; it
    stops reading as soon as the running total equals [row_sum] and
    returns the candidate: the date and time of the first confirmation
    read that has a quantity other than zero and a date that is not empty;
    while no such confirmation was read, the empty date with the time of
    the last confirmation read that has a quantity other than zero.  When
    the total never equals [row_sum] it returns the error sentinel after
    the whole history. *)
Theorem get_yielded_date_resolves :
  forall (abas : service) (work_slip : string) (row_sum : float)
         (ids : list string) (newest_first : list Confirmation),
    work_slip <> "" ->
    filed_confirmations abas work_slip = Ok ids ->
    Forall2 (fun id c => confirmation abas id = Ok c) (rev ids) newest_first ->
    get_yielded_date abas work_slip row_sum
    = (GetFiledConfirmations work_slip
         :: map GetConfirmation
                (firstn (read_count newest_first row_sum) (rev ids)),
       Ok (YPair (fst (resolve newest_first row_sum))
                 (snd (resolve newest_first row_sum)))).
Proof.
  intros abas work_slip row_sum ids newest_first Hslip Hids Hrecords.
  unfold get_yielded_date.
  apply String.eqb_neq in Hslip. rewrite Hslip.
  unfold send. rewrite Hids, bind_answers.
  pose proof (yielded_scan_resolves abas row_sum (rev ids) newest_first []
                Hrecords) as Hscan.
  cbn zeta in Hscan. cbn [app length] in Hscan.
  change (running_total []) with 0%float in Hscan.
  change (fst (candidate [])) with "" in Hscan.
  change (snd (candidate [])) with "" in Hscan.
  rewrite Hscan.
  unfold resolve, read_count, first_reached.
  destruct (find _ (seq 1 (length newest_first))) as [k |];
    cbn [requests outcome fst snd app bind ret];
    rewrite ?Nat.sub_0_r, ?app_nil_r; reflexivity.
Qed.

Lemma get_yielded_date_resolves_witness :
  get_yielded_date Samples.undated_newest "WS1" 20
  = (GetFiledConfirmations "WS1"
       :: map GetConfirmation
              (firstn (read_count [Samples.undated; Samples.filed_earlier] 20)
                      (rev ["c1"; "c2"])),
     Ok (YPair (fst (resolve [Samples.undated; Samples.filed_earlier] 20))
               (snd (resolve [Samples.undated; Samples.filed_earlier] 20)))).
Proof.
  apply (get_yielded_date_resolves
           Samples.undated_newest "WS1" 20 ["c1"; "c2"]
           [Samples.undated; Samples.filed_earlier]).
  - discriminate.
  - reflexivity.
  - repeat constructor.
Defined.

(** C8, as stated, fails: the newest confirmation of this work slip has a
    quantity of 10 and no date, the one before it has a quantity of 10 and
    was filed on 10/30/26 at 08:00.  The first confirmation read with a
    quantity other than zero is the newest, and [get_yielded_date] returns
    the date and time of the older one. *)
Lemma undated_confirmation_is_passed_over :
  find nonzero [Samples.undated; Samples.filed_earlier] = Some Samples.undated
  /\ (abldat Samples.undated, slice_m8_m3 (stand Samples.undated))
     = ("", "10:15")
  /\ get_yielded_date Samples.undated_newest "WS1" 20
     = ([GetFiledConfirmations "WS1"; GetConfirmation "c2";
         GetConfirmation "c1"],
        Ok (YPair "10/30/26" "08:00")).
Proof. repeat split; vm_compute; reflexivity. Qed.

(* ===================================================================== *)
(** ** Further properties of wo_updater.py *)
(* ===================================================================== *)

Import WoUpdater Reference.

(** *** [in_quality]: nothing to report *)

(** X1.  On a table without MRB quantity and without Inspection or Final
    Inspection step (an empty table and a table of the header alone
    included), [in_quality] returns the initial tuple and asks nothing. *)
Theorem in_quality_plain_table :
  forall (STARTING_STRINGS : list string) (abas : service)
         (prod_table : list OperationStep),
    (forall k row, 1 <= k -> nth_error prod_table k = Some row ->
                   (0 <? mrbqty row)%float = false
                   /\ artbez row <> "Inspection"
                   /\ artbez row <> "Final Inspection") ->
    in_quality STARTING_STRINGS abas prod_table
    = ([], Ok (NOT_IN_QUALITY, None, "N/A", "N/A", false, 0%float, "N/A")).
Proof.
  intros accepted abas prod_table Hplain.
  unfold in_quality.
  destruct prod_table as [| header steps]; [reflexivity |].
  replace (length (header :: steps) - 1) with (length steps + 0)
    by (cbn [length]; lia).
  rewrite quality_loop_passes.
  - reflexivity.
  - cbn [length]. lia.
  - intros k row Hk. apply Hplain. lia.
Qed.

Lemma in_quality_plain_table_witness :
  in_quality Samples.prefixes Samples.confirmations_down
             [Samples.header;
              Samples.operation "WS1" "Drilling" 0 100 0 0;
              Samples.operation "WS2" "Deburring" 0 40 0 0]
  = ([], Ok (NOT_IN_QUALITY, None, "N/A", "N/A", false, 0%float, "N/A")).
Proof.
  apply in_quality_plain_table.
  intros k row Hk Hrow.
  destruct k as [| [| [| k]]]; [lia | | | destruct k; discriminate Hrow];
    injection Hrow as <-; (split; [reflexivity |]);
    split; discriminate.
Defined.

(** *** [get_cc_date] *)

Lemma cc_date_scan_before (work_slip : string)
      (before rest : list (string * string)) :
  Forall (fun row => fst row <> work_slip) before ->
  cc_date_scan (before ++ rest) work_slip None
  = cc_date_scan rest work_slip None.
Proof.
  induction before as [| [twonum tdate] before IH]; intros Hbefore;
    [reflexivity |].
  apply Forall_cons_iff in Hbefore. destruct Hbefore as [Hrow Hbefore'].
  cbn [app cc_date_scan]. cbn [fst] in Hrow.
  apply String.eqb_neq in Hrow. rewrite Hrow. apply IH. exact Hbefore'.
Qed.

Lemma cc_date_scan_run (work_slip : string)
      (run : list (string * string)) (tdate : string)
      (after : list (string * string)) :
  Forall (fun row => fst row = work_slip) run ->
  match after with
  | [] => True
  | row :: _ => fst row <> work_slip
  end ->
  forall found : option string,
    cc_date_scan (run ++ (work_slip, tdate) :: after) work_slip found
    = Some tdate.
Proof.
  intros Hrun Hafter.
  induction run as [| [twonum d] run IH]; intros found.
  - cbn [app cc_date_scan]. rewrite String.eqb_refl.
    destruct after as [| [twonum d] after]; [reflexivity |].
    cbn [cc_date_scan]. cbn [fst] in Hafter.
    apply String.eqb_neq in Hafter. rewrite Hafter. reflexivity.
  - apply Forall_cons_iff in Hrun. destruct Hrun as [Hrow Hrun'].
    cbn [fst] in Hrow. subst twonum.
    cbn [app cc_date_scan]. rewrite String.eqb_refl. apply IH. exact Hrun'.
Qed.

(** X2.  [get_cc_date] answers with the date of the last row of the first
    run of consecutive rows of the work slip; rows of the work slip that
    come after a row of another work slip are not looked at. *)
Theorem get_cc_date_first_run :
  forall (abas : service) (database_id work_slip tdate : string)
         (before run after : list (string * string)),
    completion_confirmations abas database_id
    = Ok (before ++ run ++ (work_slip, tdate) :: after) ->
    Forall (fun row => fst row <> work_slip) before ->
    Forall (fun row => fst row = work_slip) run ->
    match after with
    | [] => True
    | row :: _ => fst row <> work_slip
    end ->
    get_cc_date abas database_id work_slip
    = ([PostCompletionConfirmations database_id], Ok tdate).
Proof.
  intros abas database_id work_slip tdate before run after
         Htable Hbefore Hrun Hafter.
  unfold get_cc_date, send. rewrite Htable.
  cbn [bind].
  rewrite (cc_date_scan_before _ _ _ Hbefore).
  rewrite (cc_date_scan_run _ _ _ _ Hrun Hafter).
  reflexivity.
Qed.

Lemma get_cc_date_first_run_witness :
  get_cc_date
    (mkService (fun _ => Ok [("WS1", "10/28/26"); ("WS2", "10/29/26");
                             ("WS2", "10/30/26"); ("WS3", "11/01/26");
                             ("WS2", "11/02/26")])
               (filed_confirmations Samples.answering)
               (confirmation Samples.answering)
               (purchase_order Samples.answering)
               (production_center Samples.answering))
    "V1" "WS2"
  = ([PostCompletionConfirmations "V1"], Ok "10/30/26").
Proof.
  apply (get_cc_date_first_run _ "V1" "WS2" "10/30/26"
           [("WS1", "10/28/26")] [("WS2", "10/29/26")]
           [("WS3", "11/01/26"); ("WS2", "11/02/26")]).
  - reflexivity.
  - repeat constructor. discriminate.
  - repeat constructor.
  - discriminate.
Defined.

(** X3.  When no row of the completion confirmations Infosystem is of the
    work slip (an empty table included), [get_cc_date] answers
    "No Completion Confirmation". *)
Theorem get_cc_date_not_found :
  forall (abas : service) (database_id work_slip : string)
         (cc_table : list (string * string)),
    completion_confirmations abas database_id = Ok cc_table ->
    Forall (fun row => fst row <> work_slip) cc_table ->
    get_cc_date abas database_id work_slip
    = ([PostCompletionConfirmations database_id],
       Ok "No Completion Confirmation").
Proof.
  intros abas database_id work_slip cc_table Htable Hnone.
  unfold get_cc_date, send. rewrite Htable. cbn [bind].
  rewrite <- (app_nil_r cc_table).
  rewrite (cc_date_scan_before _ _ _ Hnone). reflexivity.
Qed.

Lemma get_cc_date_not_found_witness :
  get_cc_date Samples.answering "V1" "WS9"
  = ([PostCompletionConfirmations "V1"], Ok "No Completion Confirmation").
Proof.
  apply (get_cc_date_not_found Samples.answering "V1" "WS9"
           [("WS2", "10/30/26"); ("WS3", "11/02/26")]).
  - reflexivity.
  - repeat constructor; discriminate.
Defined.

(** *** [get_mrb_date] *)

Lemma mrb_date_scan_passes (abas : service) (newer rest : list string) :
  (forall id, In id newer ->
              exists c, confirmation abas id = Ok c
                        /\ (0 <? ymrbqty c)%float = false) ->
  mrb_date_scan abas (newer ++ rest)
  = (map GetConfirmation newer ++ requests (mrb_date_scan abas rest),
     outcome (mrb_date_scan abas rest)).
Proof.
  induction newer as [| id newer IH]; intros Hnewer.
  - cbn [app map]. apply surjective_pairing.
  - destruct (Hnewer id (or_introl eq_refl)) as (c & Hc & Hqty).
    cbn [app mrb_date_scan]. unfold check_mrb_qty, send. rewrite Hc.
    cbn [bind]. rewrite Hqty.
    cbn [ret fst snd app].
    rewrite IH by (intros id' Hid'; apply Hnewer; right; exact Hid').
    reflexivity.
Qed.

(** X4.  [get_mrb_date] reads the filed confirmations of the work slip from
    the newest on and answers with the time stamp of the first one that has
    MRB quantity; older confirmations are not requested. *)
Theorem get_mrb_date_newest_mrb :
  forall (abas : service) (work_slip : string)
         (older : list string) (id : string) (newer : list string)
         (c : Confirmation),
    filed_confirmations abas work_slip = Ok (older ++ id :: newer) ->
    (forall id', In id' newer ->
                 exists c', confirmation abas id' = Ok c'
                            /\ (0 <? ymrbqty c')%float = false) ->
    confirmation abas id = Ok c ->
    (0 <? ymrbqty c)%float = true ->
    get_mrb_date abas work_slip
    = (GetFiledConfirmations work_slip
         :: map GetConfirmation (rev newer) ++ [GetConfirmation id],
       Ok (stand c)).
Proof.
  intros abas work_slip older id newer c Hfiled Hnewer Hc Hqty.
  unfold get_mrb_date, send. rewrite Hfiled, bind_answers.
  rewrite rev_app_distr. cbn [rev]. rewrite <- app_assoc. cbn [app].
  rewrite mrb_date_scan_passes
    by (intros id' Hid'; apply Hnewer; apply in_rev; exact Hid').
  cbn [mrb_date_scan]. unfold check_mrb_qty, send. rewrite Hc.
  cbn [bind]. rewrite Hqty.
  reflexivity.
Qed.

Lemma get_mrb_date_newest_mrb_witness :
  get_mrb_date
    (mkService (completion_confirmations Samples.answering)
               (fun _ => Ok ["c0"; "c1"; "c2"])
               (fun id => if id =? "c1"
                          then Ok (mkConfirmation 7 3 0 "10/30/26"
                                                  "2026-10-30 08:00:00")
                          else Ok (Samples.a_confirmation 10 "11/02/26"))
               (purchase_order Samples.answering)
               (production_center Samples.answering))
    "WS1"
  = ([GetFiledConfirmations "WS1"; GetConfirmation "c2"; GetConfirmation "c1"],
     Ok "2026-10-30 08:00:00").
Proof.
  apply (get_mrb_date_newest_mrb _ "WS1" ["c0"] "c1" ["c2"]
           (mkConfirmation 7 3 0 "10/30/26" "2026-10-30 08:00:00")).
  - reflexivity.
  - intros id' [<- | []]. eexists. split; [reflexivity |].
    reflexivity.
  - reflexivity.
  - reflexivity.
Defined.

(** X5.  When no filed confirmation of the work slip has MRB quantity (no
    filed confirmation at all included), [get_mrb_date] answers
    "No Completion Confirmation" after reading all of them, newest first. *)
Theorem get_mrb_date_no_mrb :
  forall (abas : service) (work_slip : string) (ids : list string),
    filed_confirmations abas work_slip = Ok ids ->
    (forall id, In id ids ->
                exists c, confirmation abas id = Ok c
                          /\ (0 <? ymrbqty c)%float = false) ->
    get_mrb_date abas work_slip
    = (GetFiledConfirmations work_slip :: map GetConfirmation (rev ids),
       Ok "No Completion Confirmation").
Proof.
  intros abas work_slip ids Hfiled Hnone.
  assert (Hscan : mrb_date_scan abas (rev ids)
                  = (map GetConfirmation (rev ids),
                     Ok "No Completion Confirmation")).
  { rewrite <- (app_nil_r (rev ids)) at 1.
    rewrite mrb_date_scan_passes
      by (intros id Hid; apply Hnone; apply in_rev; exact Hid).
    cbn [mrb_date_scan ret requests outcome fst snd].
    rewrite app_nil_r. reflexivity. }
  unfold get_mrb_date, send. rewrite Hfiled, bind_answers, Hscan.
  reflexivity.
Qed.

Lemma get_mrb_date_no_mrb_witness :
  get_mrb_date Samples.answering "WS1"
  = ([GetFiledConfirmations "WS1"; GetConfirmation "c2"; GetConfirmation "c1"],
     Ok "No Completion Confirmation").
Proof.
  apply (get_mrb_date_no_mrb Samples.answering "WS1" ["c1"; "c2"]).
  - reflexivity.
  - intros id [<- | [<- | []]]; eexists; (split; [reflexivity |]);
      reflexivity.
Defined.

(** *** [in_quality]: the fields of the tuple agree *)

Lemma bind_answers_inv {A B : Type} (m : M A) (f : A -> M B) (b : B) :
  outcome (bind m f) = Ok b ->
  exists a, outcome m = Ok a /\ outcome (f a) = Ok b.
Proof.
  destruct m as [l [a | e']]; cbn [bind outcome snd].
  - intros H. exists a. split; [reflexivity |].
    destruct (f a) as [l' r]. exact H.
  - discriminate.
Qed.

Lemma backward_scan_keeps (STARTING_STRINGS : list string) (abas : service)
      (prod_table : list OperationStep) (i : nat) (curr_sum : float) :
  forall (j : nat) (st st' : locals),
    outcome (backward_scan STARTING_STRINGS abas prod_table i curr_sum j st)
    = Ok st' ->
    quality_part st -> no_mrb_yet st ->
    quality_part st' /\ no_mrb_yet st'.
Proof.
  induction j as [| j IH]; intros st st' Hok Hquality Hmrb.
  - cbn in Hok. injection Hok as <-. split; assumption.
  - cbn [backward_scan] in Hok.
    apply bind_answers_inv in Hok. destruct Hok as (row & _ & Hok).
    destruct (negb (artbez row =? "1st Off")
              && negb (contains "CMM" (artbez row))
              && startswith (art row) STARTING_STRINGS).
    + destruct (ycomplete row <=? curr_sum)%float.
      * cbn in Hok. injection Hok as <-. split; assumption.
      * destruct (curr_sum <? ycomplete row)%float eqn:Hahead.
        -- apply bind_answers_inv in Hok. destruct Hok as (header & _ & Hok).
           apply bind_answers_inv in Hok. destruct Hok as (row_i & _ & Hok).
           apply bind_answers_inv in Hok. destruct Hok as (d & _ & Hok).
           apply (IH _ _ Hok); [| exact Hmrb].
           right. split; [reflexivity |].
           eexists. split; [reflexivity |].
           exists (ycomplete row), curr_sum. split; [reflexivity | exact Hahead].
        -- apply (IH _ _ Hok); assumption.
    + apply (IH _ _ Hok); assumption.
Qed.

Lemma forward_scan_keeps (STARTING_STRINGS : list string)
      (prod_table : list OperationStep) (curr_yield : float) :
  forall (left j : nat) (st st' : locals),
    outcome (forward_scan STARTING_STRINGS prod_table curr_yield j left st)
    = Ok st' ->
    quality_part st -> no_mrb_yet st ->
    quality_part st' /\ no_mrb_yet st'.
Proof.
  induction left as [| left IH]; intros j st st' Hok Hquality Hmrb.
  - cbn in Hok. injection Hok as <-. split; assumption.
  - cbn [forward_scan] in Hok.
    apply bind_answers_inv in Hok. destruct Hok as (row & _ & Hok).
    apply bind_answers_inv in Hok. destruct Hok as (considered & _ & Hok).
    destruct (considered && (curr_yield <? ycomplete row)%float).
    + cbn in Hok. injection Hok as <-. split; assumption.
    + apply (IH _ _ _ Hok); assumption.
Qed.

Lemma quality_loop_keeps (STARTING_STRINGS : list string) (abas : service)
      (prod_table : list OperationStep) :
  forall (left i : nat) (st st' : locals),
    outcome (quality_loop STARTING_STRINGS abas prod_table i left st)
    = Ok st' ->
    quality_part st -> no_mrb_yet st ->
    quality_part st'
    /\ (no_mrb_yet st'
        \/ (mrb st' = true /\ (0 <? mrb_qty st')%float = true)).
Proof.
  induction left as [| left IH]; intros i st st' Hok Hquality Hmrb.
  - cbn in Hok. injection Hok as <-. split; [assumption | left; assumption].
  - cbn [quality_loop] in Hok.
    apply bind_answers_inv in Hok. destruct Hok as (row & _ & Hok).
    destruct (0 <? mrbqty row)%float eqn:Hqty.
    + apply bind_answers_inv in Hok. destruct Hok as (header & _ & Hok).
      apply bind_answers_inv in Hok. destruct Hok as (d & _ & Hok).
      cbn [ret outcome snd] in Hok. injection Hok as <-.
      split; [exact Hquality |].
      right. split; [reflexivity |].
      destruct Hmrb as (_ & Hzero & _).
      cbn [set_mrb mrb_qty]. rewrite Hzero, (zero_plus _ Hqty).
      exact Hqty.
    + apply bind_answers_inv in Hok. destruct Hok as (st1 & Hstep & Hok).
      assert (Hkept : quality_part st1 /\ no_mrb_yet st1).
      { destruct (((artbez row =? "Inspection")
                   || (artbez row =? "Final Inspection"))
                  && negb (qual_found st)).
        - unfold inspect in Hstep.
          apply bind_answers_inv in Hstep.
          destruct Hstep as (st0 & Hback & Hstep).
          destruct (backward_scan_keeps _ _ _ _ _ _ _ _ Hback Hquality Hmrb)
            as [Hq0 Hm0].
          destruct (in_qual st0 || (ycomplete row =? 0)%float).
          + apply (forward_scan_keeps _ _ _ _ _ _ _ Hstep Hq0 Hm0).
          + cbn in Hstep. injection Hstep as <-. split; assumption.
        - cbn in Hstep. injection Hstep as <-. split; assumption. }
      destruct Hkept as [Hq1 Hm1].
      apply (IH _ _ _ Hok Hq1 Hm1).
Qed.

(** X7.  Whenever [in_quality] returns, the fields of its tuple agree:
    status NOT_IN_QUALITY comes with quantity, date and progress "N/A", a
    status TENTATIVE or CONFIRMED with a quantity that is the difference
    [this_yield - curr_sum] of a yield greater than the sum it is compared
    with; the MRB flag is false with MRB quantity 0 and MRB date "N/A", or
    true with an MRB quantity greater than zero. *)
Theorem in_quality_fields_agree :
  forall (STARTING_STRINGS : list string) (abas : service)
         (prod_table : list OperationStep) (t : quality_tuple),
    outcome (in_quality STARTING_STRINGS abas prod_table) = Ok t ->
    quality_fields_agree t.
Proof.
  intros accepted abas prod_table t Hok.
  unfold in_quality in Hok.
  apply bind_answers_inv in Hok. destruct Hok as (st & Hloop & Hok).
  cbn in Hok. injection Hok as <-.
  assert (Hinit_q : quality_part initial)
    by (left; repeat split; reflexivity).
  assert (Hinit_m : no_mrb_yet initial) by (repeat split; reflexivity).
  destruct (quality_loop_keeps _ _ _ _ _ _ _ Hloop Hinit_q Hinit_m)
    as [Hquality Hmrb].
  unfold quality_fields_agree. split.
  - destruct Hquality as [(Hin & Hqty & Hdate & Hprogress) | (Hin & Hqty)];
      rewrite Hin.
    + left. rewrite andb_false_r. repeat split; assumption.
    + right. split; [| exact Hqty].
      destruct (tentative st); [left | right]; reflexivity.
  - destruct Hmrb as [(Hflag & Hqty & Hdate) | (Hflag & Hqty)].
    + left. repeat split; assumption.
    + right. split; assumption.
Qed.

Lemma in_quality_fields_agree_witness :
  quality_fields_agree
    (CONFIRMED, Some 160%float, "11/02/26", "3/3", false, 0%float, "N/A").
Proof.
  apply (in_quality_fields_agree Samples.prefixes Samples.answering
                                 Samples.two_prior_steps).
  reflexivity.
Defined.

(** *** [get_yield]: the last fully released step decides *)

Lemma skipn_nth_error {A : Type} (l : list A) :
  forall (k : nat) (a : A),
    nth_error l k = Some a -> skipn k l = a :: skipn (S k) l.
Proof.
  induction l as [| x l IH]; intros [| k] a H; try discriminate H.
  - injection H as ->. reflexivity.
  - cbn [nth_error] in H. cbn [skipn]. apply IH. exact H.
Qed.

(** The next process of [get_yield], in terms of the rows after step [i]. *)
Lemma next_process_following (prod_table : list OperationStep) (i : nat) :
  i < length prod_table ->
  next_process prod_table i = lift (following (skipn (S i) prod_table)).
Proof.
  intros Hi. unfold next_process.
  destruct (Nat.eqb_spec i (length prod_table - 1)) as [Hlast | Hmore].
  - rewrite skipn_all2 by lia. reflexivity.
  - replace (i + 1) with (S i) by lia. replace (i + 2) with (S (S i)) by lia.
    destruct (nth_error prod_table (S i)) as [next |] eqn:Hnext;
      [| apply nth_error_None in Hnext; lia].
    rewrite (item_nth_error _ _ _ Hnext), bind_lift_ok.
    rewrite (skipn_nth_error _ _ _ Hnext). cbn [following].
    destruct (artbez next =? "1st Off"); [| reflexivity].
    destruct (nth_error prod_table (S (S i))) as [after |] eqn:Hafter.
    + rewrite (item_nth_error _ _ _ Hafter), bind_lift_ok.
      rewrite (skipn_nth_error _ _ _ Hafter). reflexivity.
    + apply nth_error_None in Hafter.
      rewrite item_out_of_range by exact Hafter.
      rewrite skipn_all2 by exact Hafter. reflexivity.
Qed.

Lemma yield_scan_passes_pending (abas : service)
      (prod_table : list OperationStep) (date : string) (j : nat) :
  forall n : nat,
    j + n < length prod_table ->
    (forall k row, j < k <= j + n -> nth_error prod_table k = Some row ->
                   (frgmge row <=? 0)%float = false) ->
    yield_scan abas prod_table date (j + n) = yield_scan abas prod_table date j.
Proof.
  induction n as [| n IH]; intros Hlen Hpending.
  - rewrite Nat.add_0_r. reflexivity.
  - rewrite Nat.add_succ_r. cbn [yield_scan].
    destruct (nth_error prod_table (S (j + n))) as [row |] eqn:Hrow;
      [| apply nth_error_None in Hrow; lia].
    rewrite (item_nth_error _ _ _ Hrow), bind_lift_ok.
    rewrite (Hpending (S (j + n)) row ltac:(lia) Hrow).
    apply IH; [lia |]. intros k r Hk. apply Hpending. lia.
Qed.

(** [get_yield] is decided at the last step that is fully released: the
    steps after it are passed, the steps before it are not read. *)
Lemma get_yield_at_last_released (abas : service)
      (prod_table : list OperationStep) (date : string)
      (i : nat) (row : OperationStep) :
  1 <= i ->
  nth_error prod_table i = Some row ->
  (frgmge row <=? 0)%float = true ->
  (forall k r, i < k -> nth_error prod_table k = Some r ->
               (frgmge r <=? 0)%float = false) ->
  get_yield abas prod_table date
  = (yt <- get_yielded_date abas (order row)
             (ycomplete row + mrbqty row + rverlust row)%float ;;
     d <- lift (yielded_item yt 0) ;;
     if d =? date
     then
       next_op <- lift (following (skipn (S i) prod_table)) ;;
       timestamp <- lift (yielded_item yt 1) ;;
       ret (true, order row, artbez row, Some (ycomplete row),
            next_op, timestamp)
     else ret no_yield).
Proof.
  intros Hi Hrow Hreleased Hpending.
  assert (Hlen : i < length prod_table)
    by (apply nth_error_Some; congruence).
  unfold get_yield.
  replace (length prod_table - 1) with (i + (length prod_table - 1 - i)) by lia.
  rewrite yield_scan_passes_pending;
    [| lia | intros k r Hk; apply Hpending; lia].
  destruct i as [| i]; [lia |].
  cbn [yield_scan].
  rewrite (item_nth_error _ _ _ Hrow), bind_lift_ok.
  rewrite Hreleased.
  rewrite (next_process_following _ _ Hlen). reflexivity.
Qed.

(** X8.  When the last fully released step was not confirmed on the target
    date, [get_yield] reports no match, whatever the steps before it are:
    no earlier step is looked up. *)
Theorem get_yield_other_date :
  forall (abas : service) (prod_table : list OperationStep)
         (date : string) (i : nat) (row : OperationStep)
         (l : list request) (yt : yielded) (d : string),
    1 <= i ->
    nth_error prod_table i = Some row ->
    (frgmge row <=? 0)%float = true ->
    (forall k r, i < k -> nth_error prod_table k = Some r ->
                 (frgmge r <=? 0)%float = false) ->
    get_yielded_date abas (order row)
                     (ycomplete row + mrbqty row + rverlust row)%float
    = (l, Ok yt) ->
    yielded_item yt 0 = Ok d ->
    d <> date ->
    get_yield abas prod_table date = (l, Ok no_yield).
Proof.
  intros abas prod_table date i row l yt d Hi Hrow Hreleased Hpending
         Hyielded Hd Hother.
  rewrite (get_yield_at_last_released abas prod_table date i row)
    by assumption.
  rewrite Hyielded, bind_answers, Hd, bind_lift_ok.
  apply String.eqb_neq in Hother. rewrite Hother.
  cbn. rewrite app_nil_r. reflexivity.
Qed.

Lemma get_yield_other_date_witness :
  get_yield Samples.answering Samples.last_step_pending "11/01/26"
  = ([GetFiledConfirmations "WS1"; GetConfirmation "c2"; GetConfirmation "c1"],
     Ok no_yield).
Proof.
  apply (get_yield_other_date
           Samples.answering Samples.last_step_pending "11/01/26" 1
           (Samples.operation "WS1" "Drilling" 0 20 0 0)
           [GetFiledConfirmations "WS1"; GetConfirmation "c2";
            GetConfirmation "c1"]
           (YPair "11/02/26" "10:15") "11/02/26").
  - lia.
  - reflexivity.
  - reflexivity.
  - intros k r Hk Hr.
    destruct k as [| [| [| k]]]; [lia | lia | | destruct k; discriminate Hr].
    injection Hr as <-. reflexivity.
  - reflexivity.
  - reflexivity.
  - discriminate.
Defined.

(** X9.  When the last fully released step was confirmed on the target
    date, [get_yield] reports the match with the work slip, description and
    yield of that step and the time of the confirmation; the next process
    is "None" for the last step of the table, the description of the next
    step, or of the step after a "1st Off"; reading past the end of the
    table in that case raises [IndexError]. *)
Theorem get_yield_matched :
  forall (abas : service) (prod_table : list OperationStep)
         (date : string) (i : nat) (row : OperationStep)
         (l : list request) (yt : yielded) (timestamp : string),
    1 <= i ->
    nth_error prod_table i = Some row ->
    (frgmge row <=? 0)%float = true ->
    (forall k r, i < k -> nth_error prod_table k = Some r ->
                 (frgmge r <=? 0)%float = false) ->
    get_yielded_date abas (order row)
                     (ycomplete row + mrbqty row + rverlust row)%float
    = (l, Ok yt) ->
    yielded_item yt 0 = Ok date ->
    yielded_item yt 1 = Ok timestamp ->
    get_yield abas prod_table date
    = (l, match following (skipn (S i) prod_table) with
          | Ok next_op =>
              Ok (true, order row, artbez row, Some (ycomplete row),
                  next_op, timestamp)
          | Raise e => Raise e
          end).
Proof.
  intros abas prod_table date i row l yt timestamp Hi Hrow Hreleased Hpending
         Hyielded Hdate Htime.
  rewrite (get_yield_at_last_released abas prod_table date i row)
    by assumption.
  rewrite Hyielded, bind_answers, Hdate, bind_lift_ok, String.eqb_refl.
  destruct (following (skipn (S i) prod_table)) as [next_op | e].
  - rewrite bind_lift_ok, Htime, bind_lift_ok.
    cbn. rewrite app_nil_r. reflexivity.
  - cbn. rewrite app_nil_r. reflexivity.
Qed.

Lemma get_yield_matched_witness :
  get_yield Samples.answering Samples.last_step_pending "11/02/26"
  = ([GetFiledConfirmations "WS1"; GetConfirmation "c2"; GetConfirmation "c1"],
     match following (skipn 2 Samples.last_step_pending) with
     | Ok next_op =>
         Ok (true, order (Samples.operation "WS1" "Drilling" 0 20 0 0),
             artbez (Samples.operation "WS1" "Drilling" 0 20 0 0),
             Some (ycomplete (Samples.operation "WS1" "Drilling" 0 20 0 0)),
             next_op, "10:15")
     | Raise e => Raise e
     end).
Proof.
  apply (get_yield_matched
           Samples.answering Samples.last_step_pending "11/02/26" 1
           (Samples.operation "WS1" "Drilling" 0 20 0 0)
           [GetFiledConfirmations "WS1"; GetConfirmation "c2";
            GetConfirmation "c1"]
           (YPair "11/02/26" "10:15") "10:15").
  - lia.
  - reflexivity.
  - reflexivity.
  - intros k r Hk Hr.
    destruct k as [| [| [| k]]]; [lia | lia | | destruct k; discriminate Hr].
    injection Hr as <-. reflexivity.
  - reflexivity.
  - reflexivity.
  - reflexivity.
Defined.

(** X10.  When the last fully released step has an empty work slip,
    [get_yield] asks nothing and reports no match for every target date
    other than "E", the first character of the string "ERROR" that
    [get_yielded_date] returns in place of a pair. *)
Theorem get_yield_empty_work_slip :
  forall (abas : service) (prod_table : list OperationStep)
         (date : string) (i : nat) (row : OperationStep),
    1 <= i ->
    nth_error prod_table i = Some row ->
    (frgmge row <=? 0)%float = true ->
    (forall k r, i < k -> nth_error prod_table k = Some r ->
                 (frgmge r <=? 0)%float = false) ->
    order row = "" ->
    date <> "E" ->
    get_yield abas prod_table date = ([], Ok no_yield).
Proof.
  intros abas prod_table date i row Hi Hrow Hreleased Hpending Hslip Hdate.
  rewrite (get_yield_at_last_released abas prod_table date i row)
    by assumption.
  unfold get_yielded_date. rewrite Hslip. cbn [String.eqb].
  rewrite bind_ret. cbn [yielded_item char_at String.get].
  rewrite bind_lift_ok.
  destruct ("E" =? date) eqn:E; [| reflexivity].
  apply String.eqb_eq in E. congruence.
Qed.

Lemma get_yield_empty_work_slip_witness :
  get_yield Samples.confirmations_down
            [Samples.header;
             Samples.operation "" "Drilling" 0 20 0 0;
             Samples.operation "WS2" "Inspection" 5 0 0 0]
            "11/02/26"
  = ([], Ok no_yield).
Proof.
  apply (get_yield_empty_work_slip
           Samples.confirmations_down _ "11/02/26" 1
           (Samples.operation "" "Drilling" 0 20 0 0)).
  - lia.
  - reflexivity.
  - reflexivity.
  - intros k r Hk Hr.
    destruct k as [| [| [| k]]]; [lia | lia | | destruct k; discriminate Hr].
    injection Hr as <-. reflexivity.
  - reflexivity.
  - discriminate.
Defined.

(* ===================================================================== *)
(** ** Further properties of po_notifier.py *)
(* ===================================================================== *)

Import PoNotifier.

(** *** [get_next_process] *)

Lemma next_process_scan_passes (table : list OperationStep)
      (process : string) :
  forall n i left : nat,
    i + n <= length table ->
    (forall k row, i <= k < i + n -> nth_error table k = Some row ->
                   art row <> process) ->
    next_process_scan table process i (n + left)
    = next_process_scan table process (i + n) left.
Proof.
  induction n as [| n IH]; intros i left Hlen Hother.
  - rewrite Nat.add_0_r. reflexivity.
  - cbn [Nat.add next_process_scan].
    destruct (nth_error table i) as [row |] eqn:Hrow;
      [| apply nth_error_None in Hrow; lia].
    rewrite (item_nth_error _ _ _ Hrow), bind_lift_ok.
    pose proof (Hother i row ltac:(lia) Hrow) as Hart.
    apply String.eqb_neq in Hart. rewrite Hart.
    replace (i + S n) with (S i + n) by lia.
    apply IH; [lia |]. intros k r Hk. apply Hother. lia.
Qed.

Lemma skipn_past {A : Type} (before : list A) (a : A) (later : list A) :
  skipn (S (length before)) (before ++ a :: later) = later.
Proof.
  induction before as [| x before IH]; [reflexivity |].
  cbn [length app]. rewrite skipn_cons. exact IH.
Qed.

(** X11.  [get_next_process] decides at the first operation whose product
    code is the process, never at the header row: it answers "None" when
    that operation is the last row, else the description of the next
    operation, or of the one after a "1st Off"; when the "1st Off" is the
    last row it raises [IndexError].  Later operations with the same
    product code are not looked at. *)
Theorem get_next_process_first_match :
  forall (abas : service) (wo_num process : string)
         (header : OperationStep) (before : list OperationStep)
         (step : OperationStep) (later : list OperationStep),
    production_center abas wo_num = Ok (header :: before ++ step :: later) ->
    Forall (fun row => art row <> process) before ->
    art step = process ->
    get_next_process abas wo_num process
    = ([PostProductionCenter wo_num], following later).
Proof.
  intros abas wo_num process header before step later Htable Hbefore Hstep.
  unfold get_next_process, send. rewrite Htable, bind_answers.
  set (table := header :: before ++ step :: later).
  assert (Hlen : length table = S (length before + S (length later))).
  { subst table. cbn [length]. rewrite length_app. reflexivity. }
  assert (Hnth : forall k, nth_error table (S k)
                           = nth_error (before ++ step :: later) k)
    by reflexivity.
  replace (length table - 1) with (length before + S (length later)) by lia.
  rewrite next_process_scan_passes.
  - cbn [next_process_scan].
    assert (Hrow : nth_error table (1 + length before) = Some step).
    { cbn [Nat.add]. rewrite Hnth, nth_error_app2 by lia.
      rewrite Nat.sub_diag. reflexivity. }
    rewrite (item_nth_error _ _ _ Hrow), bind_lift_ok.
    rewrite Hstep, String.eqb_refl.
    change (if (1 + length before =? length table - 1)%nat
            then ret "None"
            else next <- lift (item table (1 + length before + 1)) ;;
                 if artbez next =? "1st Off"
                 then (after <- lift (item table (1 + length before + 2)) ;;
                       ret (artbez after))
                 else ret (artbez next))
      with (WoUpdater.next_process table (1 + length before)).
    rewrite next_process_following by lia.
    subst table. cbn [Nat.add]. rewrite skipn_cons, skipn_past.
    cbn [lift requests outcome fst snd app]. reflexivity.
  - lia.
  - intros k row Hk Hrow.
    destruct k as [| k]; [lia |].
    rewrite Hnth, nth_error_app1 in Hrow by lia.
    rewrite Forall_forall in Hbefore. apply Hbefore.
    apply nth_error_In with k. exact Hrow.
Qed.

Lemma get_next_process_first_match_witness :
  get_next_process Samples.answering "4711" "ANODIZE"
  = ([PostProductionCenter "4711"],
     following [Samples.operation "WS3" "Inspection" 0 0 0 0]).
Proof.
  apply (get_next_process_first_match
           Samples.answering "4711" "ANODIZE" Samples.header
           [Samples.operation "WS1" "Drilling" 0 10 0 0]
           (mkStep "WS2" "ANODIZE" "Anodizing" 0 10 0 0 "")
           [Samples.operation "WS3" "Inspection" 0 0 0 0]).
  - reflexivity.
  - repeat constructor. discriminate.
  - reflexivity.
Defined.

(** X12.  When no operation of the work order has the process as product
    code (the header row does not count, and a table of the header alone
    or an empty table is included), [get_next_process] answers
    "Not Found". *)
Theorem get_next_process_not_found :
  forall (abas : service) (wo_num process : string)
         (table : list OperationStep),
    production_center abas wo_num = Ok table ->
    (forall k row, 1 <= k -> nth_error table k = Some row ->
                   art row <> process) ->
    get_next_process abas wo_num process
    = ([PostProductionCenter wo_num], Ok "Not Found").
Proof.
  intros abas wo_num process table Htable Hother.
  unfold get_next_process, send. rewrite Htable, bind_answers.
  destruct table as [| header steps]; [reflexivity |].
  replace (length (header :: steps) - 1) with (length steps + 0)
    by (cbn [length]; lia).
  rewrite next_process_scan_passes.
  - reflexivity.
  - cbn [length]. lia.
  - intros k row Hk. apply Hother. lia.
Qed.

Lemma get_next_process_not_found_witness :
  get_next_process Samples.answering "4711" "PLATING"
  = ([PostProductionCenter "4711"], Ok "Not Found").
Proof.
  apply (get_next_process_not_found
           Samples.answering "4711" "PLATING"
           [Samples.header;
            Samples.operation "WS1" "Drilling" 0 10 0 0;
            mkStep "WS2" "ANODIZE" "Anodizing" 0 10 0 0 "";
            Samples.operation "WS3" "Inspection" 0 0 0 0]).
  - reflexivity.
  - intros k row Hk Hrow.
    destruct k as [| [| [| [| k]]]];
      [lia | | | | destruct k; discriminate Hrow];
      injection Hrow as <-; discriminate.
Defined.

(** *** [merge_materials_data] *)

Import Merged.

Lemma material_update_at (old : list Materials.MaterialRow)
      (g : Materials.MaterialRow) (tl : list Materials.MaterialRow)
      (f : Materials.MaterialRow -> Materials.MaterialRow) :
  Materials.update (old ++ g :: tl) (length old) f = old ++ f g :: tl.
Proof.
  induction old as [| x old IH]; [reflexivity |].
  cbn [app length Materials.update]. rewrite IH. reflexivity.
Qed.

Lemma nth_error_middle {A : Type} (old : list A) (g : A) (tl : list A) :
  nth_error (old ++ g :: tl) (length old) = Some g.
Proof.
  rewrite nth_error_app2 by lia. rewrite Nat.sub_diag. reflexivity.
Qed.

Lemma material_deref_app (store : list Materials.MaterialRow)
      (refs1 refs2 : list nat) (out1 out2 : list Materials.MaterialRow) :
  Materials.deref store refs1 = ret out1 ->
  Materials.deref store refs2 = ret out2 ->
  Materials.deref store (refs1 ++ refs2) = ret (out1 ++ out2).
Proof.
  revert out1. induction refs1 as [| k refs1 IH]; intros out1 H1 H2.
  - cbn in H1. injection H1 as <-. exact H2.
  - cbn [app Materials.deref] in *.
    destruct (item store k) as [r | e]; [| discriminate H1].
    rewrite bind_lift_ok in *.
    destruct (Materials.deref store refs1) as [l [rs | e]] eqn:Hrs;
      [| discriminate H1].
    cbn in H1. injection H1 as Hl <-. rewrite app_nil_r in Hl. subst l.
    rewrite (IH rs eq_refl H2). reflexivity.
Qed.

(** The loop of [merge_materials_data] while the group of [g] is read:
    [old] are the rows before the group, as the emissions left them, [mid]
    the rows already merged into [g], [rest] the rows still to read, and
    [out] the rows emitted so far. *)
Lemma material_loop_adjacent :
  forall (rest old : list Materials.MaterialRow) (g : Materials.MaterialRow)
         (mid : list Materials.MaterialRow) (acc : float) (m : bool)
         (c : option Materials.fields) (refs : list nat)
         (out : list Materials.MaterialRow),
    (forall tail, Materials.deref (old ++ tail) refs = ret out) ->
    Forall (fun r => material_is_text r = true) rest ->
    Forall (fun r => Materials.po r <> "No Value") rest ->
    bind (Materials.merge_loop
            (length old + 1 + length mid) (S (length rest))
            (Materials.mkLocals (old ++ g :: mid ++ rest) refs
                                (fields_of g acc) (length old) m c))
         (fun st => Materials.deref (Materials.data st)
                                    (Materials.merged_data st))
    = ret (out ++ merge_from g acc m rest).
Proof.
  induction rest as [| r rest IH];
    intros old g mid acc m c refs out Hrefs Htext Hpo.
  - cbn [length Materials.merge_loop Materials.data].
    assert (Hlen : length (old ++ g :: mid ++ [])
                   = length old + 1 + length mid).
    { rewrite app_nil_r, length_app. cbn [length]. lia. }
    rewrite Hlen, Nat.ltb_irrefl, bind_ret.
    cbn [Materials.data Materials.curr andb]. rewrite Hlen, Nat.ltb_irrefl.
    cbn [andb].
    unfold Materials.emit.
    cbn [Materials.data Materials.prev_row Materials.merged_data
         Materials.merged Materials.prev Materials.curr].
    rewrite (item_nth_error _ _ _ (nth_error_middle old g (mid ++ []))).
    rewrite bind_lift_ok.
    assert (Hstore : (if m
                      then Materials.update (old ++ g :: mid ++ [])
                             (length old)
                             (Materials.set_6
                                (QtyFloat (Materials.f_qty (fields_of g acc))))
                      else old ++ g :: mid ++ [])
                     = old ++ reported g acc m :: mid ++ []).
    { destruct m; [apply material_update_at | reflexivity]. }
    rewrite Hstore.
    assert (Hout : Materials.deref (old ++ reported g acc m :: mid ++ [])
                                   (refs ++ [length old])
                   = ret (out ++ [reported g acc m])).
    { apply material_deref_app; [apply Hrefs |].
      cbn [Materials.deref].
      rewrite (item_nth_error _ _ _ (nth_error_middle old _ (mid ++ []))).
      reflexivity. }
    unfold Materials.curr_po. cbn [Materials.curr].
    destruct c as [f |].
    + destruct (negb (Materials.f_po f =? "No Value"));
        rewrite !bind_ret; cbn [Materials.data Materials.merged_data];
        exact Hout.
    + cbn [String.eqb Ascii.eqb Bool.eqb negb].
      rewrite !bind_ret. cbn [Materials.data Materials.merged_data].
      exact Hout.
  - apply Forall_cons_iff in Htext. destruct Htext as [Hr_text Htext].
    apply Forall_cons_iff in Hpo. destruct Hpo as [Hr_po Hpo].
    unfold material_is_text in Hr_text.
    destruct (Materials.qty r) as [v | v] eqn:Hqty; [| discriminate].
    assert (Hlen : length old + 1 + length mid
                   < length (old ++ g :: mid ++ r :: rest)).
    { rewrite length_app. cbn [length]. rewrite length_app. cbn [length]. lia. }
    assert (Hr : nth_error (old ++ g :: mid ++ r :: rest)
                           (length old + 1 + length mid) = Some r).
    { replace (old ++ g :: mid ++ r :: rest)
        with ((old ++ g :: mid) ++ r :: rest)
        by (rewrite <- app_assoc; reflexivity).
      replace (length old + 1 + length mid) with (length (old ++ g :: mid))
        by (rewrite length_app; cbn [length]; lia).
      apply nth_error_middle. }
    apply Nat.ltb_lt in Hlen.
    cbn [Materials.merge_loop Materials.data].
    rewrite Hlen, (item_nth_error _ _ _ Hr), bind_lift_ok.
    unfold Materials.read. rewrite Hqty. cbn [atof].
    rewrite bind_lift_ok, !bind_ret.
    cbn [Materials.data Materials.curr Materials.prev andb].
    rewrite Hlen. cbn [andb].
    change (Materials.same_fields _ (fields_of g acc))
      with (same_material g r).
    cbn [merge_from]. rewrite Hqty. cbn [qty_value].
    destruct (same_material g r).
    + rewrite bind_ret.
      cbn [Materials.data Materials.merged_data Materials.prev
           Materials.prev_row Materials.curr Materials.f_qty].
      change (Materials.set_f_qty (Materials.f_qty (fields_of g acc) + v)
                                  (fields_of g acc))
        with (fields_of g (acc + v)%float).
      cbn [length].
      replace (old ++ g :: mid ++ r :: rest)
        with (old ++ g :: (mid ++ [r]) ++ rest)
        by (rewrite <- app_assoc; reflexivity).
      replace (S (length old + 1 + length mid))
        with (length old + 1 + length (mid ++ [r]))
        by (rewrite length_app; cbn [length]; lia).
      apply IH; assumption.
    + cbn [Materials.merged_data Materials.prev_row Materials.merged].
      unfold Materials.emit.
      cbn [Materials.data Materials.prev_row Materials.merged_data
           Materials.merged Materials.prev Materials.curr].
      rewrite (item_nth_error _ _ _
                 (nth_error_middle old g (mid ++ r :: rest))).
      rewrite bind_lift_ok.
      assert (Hstore : (if m
                        then Materials.update (old ++ g :: mid ++ r :: rest)
                               (length old)
                               (Materials.set_6
                                  (QtyFloat
                                     (Materials.f_qty (fields_of g acc))))
                        else old ++ g :: mid ++ r :: rest)
                       = (old ++ reported g acc m :: mid) ++ r :: [] ++ rest).
      { rewrite <- app_assoc. cbn [app].
        destruct m; [apply material_update_at | reflexivity]. }
      rewrite Hstore.
      unfold Materials.curr_po. cbn [Materials.curr Materials.f_po].
      apply String.eqb_neq in Hr_po. rewrite Hr_po. cbn [negb].
      rewrite bind_ret.
      assert (Hold : length (old ++ reported g acc m :: mid)
                     = length old + 1 + length mid)
        by (rewrite length_app; cbn [length]; lia).
      rewrite <- Hold. cbn [length].
      replace (S (length (old ++ reported g acc m :: mid)))
        with (length (old ++ reported g acc m :: mid) + 1 + length (@nil Materials.MaterialRow))
        by (cbn [length]; lia).
      rewrite (IH (old ++ reported g acc m :: mid) r [] v false _
                  (refs ++ [length old]) (out ++ [reported g acc m])).
      * rewrite <- app_assoc. reflexivity.
      * intros tail. apply material_deref_app.
        -- rewrite <- app_assoc. apply Hrefs.
        -- cbn [Materials.deref]. rewrite <- app_assoc. cbn [app].
           rewrite (item_nth_error _ _ _ (nth_error_middle old _ _)).
           reflexivity.
      * exact Htext.
      * exact Hpo.
Qed.

(** The loop entered from [merge_materials_data]. *)
Lemma material_merge_refines (first : Materials.MaterialRow)
      (rest : list Materials.MaterialRow) :
  Forall (fun r => material_is_text r = true) (first :: rest) ->
  Forall (fun r => Materials.po r <> "No Value") rest ->
  Materials.merge_materials_data (first :: rest)
  = ([], Ok (merge_adjacent (first :: rest))).
Proof.
  intros Htext Hpo.
  apply Forall_cons_iff in Htext. destruct Htext as [Hfirst Htext].
  unfold material_is_text in Hfirst.
  unfold Materials.merge_materials_data.
  cbn [item nth_error]. rewrite bind_lift_ok.
  unfold Materials.read.
  destruct (Materials.qty first) as [v | v] eqn:Hqty; [| discriminate].
  cbn [atof]. rewrite bind_lift_ok, bind_ret.
  cbn [merge_adjacent]. rewrite Hqty. cbn [qty_value].
  apply (material_loop_adjacent rest [] first [] v false None [] []);
    [reflexivity | exact Htext | exact Hpo].
Qed.

(** X13.  On materials rows with text quantities, none of which after the
    first has the purchase order "No Value", [merge_materials_data] returns
    the rows merged by adjacent equal keys: each run of neighbouring rows
    with equal columns 0 to 5 becomes its first row, with the quantities of
    the run added up as floats, in the order of the rows, when the run has
    more than one row.  The in-place
    writes to the shared row objects and the pass after the last row do not
    show in the result. *)
Theorem merge_materials_data_adjacent :
  forall (first : Materials.MaterialRow) (rest : list Materials.MaterialRow),
    Forall (fun r => material_is_text r = true) (first :: rest) ->
    Forall (fun r => Materials.po r <> "No Value") rest ->
    Materials.merge_materials_data (first :: rest)
    = ([], Ok (merge_adjacent (first :: rest))).
Proof.
  intros first rest Htext Hpo.
  apply Forall_cons_iff in Htext. destruct Htext as [Hfirst Htext].
  unfold material_is_text in Hfirst.
  unfold Materials.merge_materials_data.
  cbn [item nth_error]. rewrite bind_lift_ok.
  unfold Materials.read.
  destruct (Materials.qty first) as [v | v] eqn:Hqty; [| discriminate].
  cbn [atof]. rewrite bind_lift_ok, bind_ret.
  cbn [merge_adjacent]. rewrite Hqty. cbn [qty_value].
  apply (material_loop_adjacent rest [] first [] v false None [] []);
    [reflexivity | exact Htext | exact Hpo].
Qed.

Lemma merge_materials_data_adjacent_witness :
  Materials.merge_materials_data
    [Materials.mkMaterialRow "4500012" "Acme" "Bar" "AL-6061" "-"
                             "MATERIAL-1" (QtyText 10);
     Materials.mkMaterialRow "4500012" "Acme" "Bar" "AL-6061" "-"
                             "MATERIAL-1" (QtyText 5);
     Materials.mkMaterialRow "4500013" "Acme" "Bolt" "M8" "-"
                             "HARDWARE-2" (QtyText 3)]
  = ([], Ok (merge_adjacent
               [Materials.mkMaterialRow "4500012" "Acme" "Bar" "AL-6061" "-"
                                        "MATERIAL-1" (QtyText 10);
                Materials.mkMaterialRow "4500012" "Acme" "Bar" "AL-6061" "-"
                                        "MATERIAL-1" (QtyText 5);
                Materials.mkMaterialRow "4500013" "Acme" "Bolt" "M8" "-"
                                        "HARDWARE-2" (QtyText 3)])).
Proof.
  apply merge_materials_data_adjacent.
  - repeat constructor.
  - repeat constructor; discriminate.
Defined.

Lemma same_material_reported (g r : Materials.MaterialRow)
      (acc acc' : float) (m m' : bool) :
  same_material (reported g acc m) (reported r acc' m') = same_material g r.
Proof. destruct m, m'; reflexivity. Qed.

Lemma merge_from_head (rows : list Materials.MaterialRow)
      (g : Materials.MaterialRow) (acc : float) (m : bool) :
  exists (acc' : float) (m' : bool) (tl : list Materials.MaterialRow),
    merge_from g acc m rows = reported g acc' m' :: tl.
Proof.
  revert acc m. induction rows as [| r rows IH]; intros acc m.
  - exists acc, m, []. reflexivity.
  - cbn [merge_from]. destruct (same_material g r).
    + apply IH.
    + exists acc, m, (merge_from r (qty_value (Materials.qty r)) false rows).
      reflexivity.
Qed.

Lemma merge_from_distinct (rows : list Materials.MaterialRow) :
  forall (g : Materials.MaterialRow) (acc : float) (m : bool),
    distinct_neighbours (merge_from g acc m rows).
Proof.
  induction rows as [| r rows IH]; intros g acc m.
  - exact I.
  - cbn [merge_from]. destruct (same_material g r) eqn:Hkey.
    + apply IH.
    + pose proof (IH r (qty_value (Materials.qty r)) false) as Htail.
      destruct (merge_from_head rows r (qty_value (Materials.qty r)) false)
        as (acc' & m' & tl & Hhead).
      rewrite Hhead in *. cbn [distinct_neighbours].
      split; [| exact Htail].
      rewrite same_material_reported. exact Hkey.
Qed.

(** X15.  On materials rows with text quantities, none of which after the
    first has the purchase order "No Value", [merge_materials_data] returns
    rows of which no two neighbours have equal columns 0 to 5. *)
Theorem merge_materials_data_distinct :
  forall (first : Materials.MaterialRow) (rest : list Materials.MaterialRow),
    Forall (fun r => material_is_text r = true) (first :: rest) ->
    Forall (fun r => Materials.po r <> "No Value") rest ->
    exists out : list Materials.MaterialRow,
      Materials.merge_materials_data (first :: rest) = ([], Ok out)
      /\ distinct_neighbours out.
Proof.
  intros first rest Htext Hpo.
  exists (merge_adjacent (first :: rest)). split.
  - apply material_merge_refines; assumption.
  - apply merge_from_distinct.
Qed.

Lemma merge_materials_data_distinct_witness :
  exists out : list Materials.MaterialRow,
    Materials.merge_materials_data
      [Materials.mkMaterialRow "4500012" "Acme" "Bar" "AL-6061" "-"
                               "MATERIAL-1" (QtyText 10);
       Materials.mkMaterialRow "4500012" "Acme" "Bar" "AL-6061" "-"
                               "MATERIAL-1" (QtyText 5);
       Materials.mkMaterialRow "4500013" "Acme" "Bolt" "M8" "-"
                               "HARDWARE-2" (QtyText 3)]
    = ([], Ok out)
    /\ distinct_neighbours out.
Proof.
  apply merge_materials_data_distinct.
  - repeat constructor.
  - repeat constructor; discriminate.
Defined.

Lemma merge_from_unchanged (rows : list Materials.MaterialRow) :
  forall g : Materials.MaterialRow,
    distinct_neighbours (g :: rows) ->
    merge_from g (qty_value (Materials.qty g)) false rows = g :: rows.
Proof.
  induction rows as [| r rows IH]; intros g Hdistinct.
  - reflexivity.
  - cbn [distinct_neighbours] in Hdistinct.
    destruct Hdistinct as [Hkey Hrows].
    cbn [merge_from]. rewrite Hkey.
    rewrite (IH r Hrows). reflexivity.
Qed.

(** X16.  Materials rows with text quantities, none of which after the
    first has the purchase order "No Value", and of which no two neighbours
    have equal columns 0 to 5, are returned by [merge_materials_data] as
    they are: same rows, same order, quantities left as text. *)
Theorem merge_materials_data_unchanged :
  forall (first : Materials.MaterialRow) (rest : list Materials.MaterialRow),
    Forall (fun r => material_is_text r = true) (first :: rest) ->
    Forall (fun r => Materials.po r <> "No Value") rest ->
    distinct_neighbours (first :: rest) ->
    Materials.merge_materials_data (first :: rest)
    = ([], Ok (first :: rest)).
Proof.
  intros first rest Htext Hpo Hdistinct.
  rewrite material_merge_refines by assumption.
  cbn [merge_adjacent]. rewrite (merge_from_unchanged rest first Hdistinct).
  reflexivity.
Qed.

Lemma merge_materials_data_unchanged_witness :
  Materials.merge_materials_data
    [Materials.mkMaterialRow "4500012" "Acme" "Bar" "AL-6061" "-"
                             "MATERIAL-1" (QtyText 10);
     Materials.mkMaterialRow "4500013" "Acme" "Bolt" "M8" "-"
                             "HARDWARE-2" (QtyText 3)]
  = ([], Ok [Materials.mkMaterialRow "4500012" "Acme" "Bar" "AL-6061" "-"
                                     "MATERIAL-1" (QtyText 10);
             Materials.mkMaterialRow "4500013" "Acme" "Bolt" "M8" "-"
                                     "HARDWARE-2" (QtyText 3)]).
Proof.
  apply merge_materials_data_unchanged.
  - repeat constructor.
  - repeat constructor; discriminate.
  - split; [reflexivity | exact I].
Defined.

(** X17.  The purchase order "No Value" is the sentinel of the loop: a row
    with that purchase order that starts a new group is never emitted, and
    the row of the group before it is returned a second time in its
    place. *)
Theorem merge_materials_data_sentinel_row :
  forall a b : Materials.MaterialRow,
    material_is_text a = true ->
    material_is_text b = true ->
    Materials.po a <> "No Value" ->
    Materials.po b = "No Value" ->
    Materials.merge_materials_data [a; b] = ([], Ok [a; a]).
Proof.
  intros a b Ha Hb Hpo_a Hpo_b.
  unfold material_is_text in Ha, Hb.
  destruct a as [pa sa da ma ia la qa], b as [pb sb db mb ib lb qb].
  cbn [Materials.qty Materials.po] in *.
  destruct qa as [va | va]; [| discriminate Ha].
  destruct qb as [vb | vb]; [| discriminate Hb].
  subst pb.
  assert (Hne : ("No Value" =? pa) = false)
    by (apply String.eqb_neq; congruence).
  assert (Hsame : forall x y,
             Materials.f_po x = "No Value" -> Materials.f_po y = pa ->
             Materials.same_fields x y = false).
  { intros x y Hx Hy. unfold Materials.same_fields.
    rewrite Hx, Hy, Hne. reflexivity. }
  unfold Materials.merge_materials_data.
  cbn -[String.eqb Materials.same_fields].
  rewrite Hsame by reflexivity.
  cbn. reflexivity.
Qed.

Lemma merge_materials_data_sentinel_row_witness :
  Materials.merge_materials_data
    [Materials.mkMaterialRow "4500012" "Acme" "Bar" "AL-6061" "-"
                             "MATERIAL-1" (QtyText 10);
     Materials.mkMaterialRow "No Value" "Acme" "Bolt" "M8" "-"
                             "HARDWARE-2" (QtyText 3)]
  = ([], Ok [Materials.mkMaterialRow "4500012" "Acme" "Bar" "AL-6061" "-"
                                     "MATERIAL-1" (QtyText 10);
             Materials.mkMaterialRow "4500012" "Acme" "Bar" "AL-6061" "-"
                                     "MATERIAL-1" (QtyText 10)]).
Proof.
  apply merge_materials_data_sentinel_row.
  - reflexivity.
  - reflexivity.
  - discriminate.
  - reflexivity.
Defined.

(** *** [merge_processing_data]: every input *)

Import Vocabulary.

Lemma bind_assoc {A B C : Type} (m : M A) (f : A -> M B) (g : B -> M C) :
  bind (bind m f) g = bind m (fun a => bind (f a) g).
Proof.
  destruct m as [l [a | e]]; [| reflexivity].
  cbn [bind]. destruct (f a) as [l1 [b | e]]; [| reflexivity].
  cbn [bind]. destruct (g b) as [l2 r]. rewrite app_assoc. reflexivity.
Qed.

Lemma bind_ext {A B : Type} (m : M A) (f g : A -> M B) :
  (forall a, f a = g a) -> bind m f = bind m g.
Proof.
  intros H. destruct m as [l [a | e]]; [| reflexivity].
  cbn [bind]. rewrite H. reflexivity.
Qed.

Lemma processing_update_at (old : list Row) (g : Row) (tl : list Row)
      (f : Row -> Row) :
  update (old ++ g :: tl) (length old) f = old ++ f g :: tl.
Proof.
  induction old as [| x old IH]; [reflexivity |].
  cbn [app length update]. rewrite IH. reflexivity.
Qed.

Lemma processing_deref_app (store : list Row) (refs1 refs2 : list nat)
      (out1 out2 : list Row) :
  deref store refs1 = ret out1 ->
  deref store refs2 = ret out2 ->
  deref store (refs1 ++ refs2) = ret (out1 ++ out2).
Proof.
  revert out1. induction refs1 as [| k refs1 IH]; intros out1 H1 H2.
  - cbn in H1. injection H1 as <-. exact H2.
  - cbn [app deref] in *.
    destruct (item store k) as [r | e]; [| discriminate H1].
    rewrite bind_lift_ok in *.
    destruct (deref store refs1) as [l [rs | e]] eqn:Hrs;
      [| discriminate H1].
    cbn in H1. injection H1 as Hl <-. rewrite app_nil_r in Hl. subst l.
    rewrite (IH rs eq_refl H2). reflexivity.
Qed.

(** The emission of the group of [g], followed by whatever comes next. *)
Lemma emit_enriches {A : Type} (abas : service) (i : nat)
      (old : list Row) (g : Row) (tl : list Row) (refs : list nat)
      (acc : float) (m : bool) (cpn : string) (cloc : option string)
      (cq : option float) (k : locals -> M A) :
  (cpn <> "No Value" -> cloc <> None /\ cq <> None) ->
  bind (emit abas i
          (mkLocals (old ++ g :: tl) refs (process g) (receipt_loc g) acc
                    (length old) m cpn cloc cq))
       k
  = bind (enrich abas g acc m)
         (fun e =>
            k (if negb (cpn =? "No Value")
               then mkLocals (old ++ e :: tl) (refs ++ [length old])
                             cpn
                             match cloc with Some loc => loc | None => "" end
                             match cq with Some q => q | None => 0%float end
                             i false cpn cloc cq
               else mkLocals (old ++ e :: tl) (refs ++ [length old])
                             (process g) (receipt_loc g) acc (length old)
                             false cpn cloc cq)).
Proof.
  intros Hbound. unfold emit, enrich.
  cbn [data prev_row merged_data merged prev_qty curr_pn curr_loc curr_qty
       prev_pn prev_loc].
  rewrite (item_nth_error _ _ _ (nth_error_middle old g tl)), bind_lift_ok.
  rewrite !bind_assoc. apply bind_ext. intros wo_list.
  rewrite !bind_assoc. apply bind_ext. intros first_wo.
  rewrite !bind_assoc. apply bind_ext. intros next.
  rewrite bind_ret.
  assert (Hstore :
            (if m
             then update
                    (update
                       (update (old ++ g :: tl) (length old)
                               (set_4 (join ", " wo_list)))
                       (length old) (set_7 next))
                    (length old) (set_6 (QtyFloat acc))
             else update
                    (update (old ++ g :: tl) (length old)
                            (set_4 (join ", " wo_list)))
                    (length old) (set_7 next))
            = old ++ emitted g wo_list next
                             (if m then Some acc else None) :: tl).
  { rewrite !processing_update_at. destruct m; reflexivity. }
  rewrite Hstore.
  destruct (cpn =? "No Value") eqn:Hcpn; cbn [negb].
  - rewrite bind_ret. reflexivity.
  - apply String.eqb_neq in Hcpn. destruct (Hbound Hcpn) as [Hloc Hq].
    destruct cloc as [loc |]; [| congruence].
    destruct cq as [q |]; [| congruence].
    cbn [bound]. rewrite !bind_ret. reflexivity.
Qed.

(** The loop of [merge_processing_data] while the group of [g] is read:
    [old] are the rows before the group, as the emissions left them, [mid]
    the rows already merged into [g], [rest] the rows still to read, and
    [out] the rows emitted so far. *)
Lemma processing_loop_adjacent (abas : service) :
  forall (rest old : list Row) (g : Row) (mid : list Row) (acc : float)
         (m : bool) (cpn : string) (cloc : option string)
         (cq : option float)
         (refs : list nat) (out : list Row),
    (forall tail, deref (old ++ tail) refs = ret out) ->
    Forall (fun r => is_text r = true) rest ->
    Forall (fun r => process r <> "No Value") rest ->
    (cpn <> "No Value" -> cloc <> None /\ cq <> None) ->
    bind (merge_loop abas (length old + 1 + length mid) (S (length rest))
            (mkLocals (old ++ g :: mid ++ rest) refs
                      (process g) (receipt_loc g) acc (length old) m
                      cpn cloc cq))
         (fun st => deref (data st) (merged_data st))
    = bind (reconcile_from abas g acc m rest)
           (fun rows => ret (out ++ rows)).
Proof.
  induction rest as [| r rest IH];
    intros old g mid acc m cpn cloc cq refs out Hrefs Htext Hpn Hbound.
  - cbn [length merge_loop data reconcile_from].
    assert (Hlen : length (old ++ g :: mid ++ [])
                   = length old + 1 + length mid).
    { rewrite app_nil_r, length_app. cbn [length]. lia. }
    rewrite Hlen, Nat.ltb_irrefl, bind_ret.
    cbn [data andb]. rewrite Hlen, Nat.ltb_irrefl.
    cbn [andb]. rewrite bind_ret.
    rewrite !bind_assoc.
    rewrite (emit_enriches abas _ old g (mid ++ []) refs acc m cpn cloc cq
               _ Hbound).
    apply bind_ext. intros e.
    rewrite !bind_ret.
    assert (Hout : deref (old ++ e :: mid ++ []) (refs ++ [length old])
                   = ret (out ++ [e])).
    { apply processing_deref_app; [apply Hrefs |].
      cbn [deref].
      rewrite (item_nth_error _ _ _ (nth_error_middle old e (mid ++ []))).
      reflexivity. }
    destruct (negb (cpn =? "No Value")); cbn [data merged_data]; exact Hout.
  - apply Forall_cons_iff in Htext. destruct Htext as [Hr_text Htext].
    apply Forall_cons_iff in Hpn. destruct Hpn as [Hr_pn Hpn].
    unfold is_text in Hr_text.
    destruct (qty r) as [v | v] eqn:Hqty; [| discriminate].
    assert (Hlen : length old + 1 + length mid
                   < length (old ++ g :: mid ++ r :: rest)).
    { rewrite length_app. cbn [length]. rewrite length_app. cbn [length]. lia. }
    assert (Hr : nth_error (old ++ g :: mid ++ r :: rest)
                           (length old + 1 + length mid) = Some r).
    { replace (old ++ g :: mid ++ r :: rest)
        with ((old ++ g :: mid) ++ r :: rest)
        by (rewrite <- app_assoc; reflexivity).
      replace (length old + 1 + length mid) with (length (old ++ g :: mid))
        by (rewrite length_app; cbn [length]; lia).
      apply nth_error_middle. }
    apply Nat.ltb_lt in Hlen.
    cbn [merge_loop data].
    rewrite Hlen, (item_nth_error _ _ _ Hr), bind_lift_ok.
    rewrite Hqty. cbn [atof]. rewrite bind_lift_ok, !bind_ret.
    cbn [data merged_data prev_pn prev_loc prev_qty prev_row merged
         curr_pn curr_loc curr_qty].
    rewrite Hlen. cbn [andb].
    assert (Hsame : (if process r =? process g
                     then loc <- bound (Some (receipt_loc r)) ;;
                          ret (loc =? receipt_loc g)
                     else ret false)
                    = ret (same_key g r)).
    { unfold same_key. destruct (process r =? process g); [| reflexivity].
      cbn [bound]. rewrite bind_ret. reflexivity. }
    rewrite Hsame, bind_ret.
    cbn [reconcile_from]. rewrite Hqty. cbn [qty_value].
    destruct (same_key g r).
    + cbn [bound]. rewrite !bind_ret.
      cbn [data merged_data prev_pn prev_loc prev_qty prev_row merged
           curr_pn curr_loc curr_qty].
      cbn [length].
      replace (old ++ g :: mid ++ r :: rest)
        with (old ++ g :: (mid ++ [r]) ++ rest)
        by (rewrite <- app_assoc; reflexivity).
      replace (S (length old + 1 + length mid))
        with (length old + 1 + length (mid ++ [r]))
        by (rewrite length_app; cbn [length]; lia).
      apply IH; try assumption.
      intros _. split; discriminate.
    + rewrite !bind_assoc.
      rewrite (emit_enriches abas _ old g (mid ++ r :: rest) refs acc m
                 (process r) (Some (receipt_loc r)) (Some v) _
                 ltac:(intros _; split; discriminate)).
      apply bind_ext. intros e.
      apply String.eqb_neq in Hr_pn. rewrite Hr_pn. cbn [negb].
      assert (Hold : length (old ++ e :: mid)
                     = length old + 1 + length mid)
        by (rewrite length_app; cbn [length]; lia).
      rewrite <- Hold. cbn [length].
      replace (old ++ e :: mid ++ r :: rest)
        with ((old ++ e :: mid) ++ r :: [] ++ rest)
        by (rewrite <- app_assoc; reflexivity).
      replace (S (length (old ++ e :: mid)))
        with (length (old ++ e :: mid) + 1 + length (@nil Row))
        by (cbn [length]; lia).
      rewrite (IH (old ++ e :: mid) r [] v false _ _ _
                  (refs ++ [length old]) (out ++ [e])).
      * rewrite bind_assoc. apply bind_ext. intros es.
        rewrite bind_ret, <- app_assoc. reflexivity.
      * intros tail. apply processing_deref_app.
        -- rewrite <- app_assoc. apply Hrefs.
        -- cbn [deref]. rewrite <- app_assoc. cbn [app].
           rewrite (item_nth_error _ _ _ (nth_error_middle old _ _)).
           reflexivity.
      * exact Htext.
      * exact Hpn.
      * intros _. split; discriminate.
Qed.

(** The loop entered from [merge_processing_data]. *)
Lemma processing_merge_refines (abas : service) (first : Row)
      (rest : list Row) :
  Forall (fun r => is_text r = true) (first :: rest) ->
  Forall (fun r => process r <> "No Value") rest ->
  merge_processing_data abas (first :: rest)
  = reconcile_from abas first (qty_value (qty first)) false rest.
Proof.
  intros Htext Hpn.
  apply Forall_cons_iff in Htext. destruct Htext as [Hfirst Htext].
  unfold is_text in Hfirst.
  unfold merge_processing_data.
  cbn [item nth_error]. rewrite bind_lift_ok.
  destruct (qty first) as [v | v] eqn:Hqty; [| discriminate].
  cbn [atof qty_value]. rewrite bind_lift_ok.
  transitivity (bind (reconcile_from abas first v false rest)
                     (fun rows => ret ([] ++ rows))).
  - apply (processing_loop_adjacent abas rest [] first [] v false
             "No Value" None None [] []);
      [reflexivity | exact Htext | exact Hpn | congruence].
  - exact (bind_ret_r _).
Qed.

(** X18.  On journal rows with text quantities, none of which after the
    first has the process "No Value", [merge_processing_data] does what the
    merge of adjacent equal keys does, requests and exceptions included:
    each run of neighbouring rows with equal process and location is
    enriched once, when it ends, in order, and reported as its first row
    with the quantities added up as floats, in the order of the rows, when
    the run has more than one row; the
    first enrichment that fails ends the merge with its exception. *)
Theorem merge_processing_data_adjacent :
  forall (abas : service) (first : Row) (rest : list Row),
    Forall (fun r => is_text r = true) (first :: rest) ->
    Forall (fun r => process r <> "No Value") rest ->
    merge_processing_data abas (first :: rest)
    = reconcile_from abas first (qty_value (qty first)) false rest.
Proof.
  intros abas first rest Htext Hpn.
  apply Forall_cons_iff in Htext. destruct Htext as [Hfirst Htext].
  unfold is_text in Hfirst.
  unfold merge_processing_data.
  cbn [item nth_error]. rewrite bind_lift_ok.
  destruct (qty first) as [v | v] eqn:Hqty; [| discriminate].
  cbn [atof qty_value]. rewrite bind_lift_ok.
  transitivity (bind (reconcile_from abas first v false rest)
                     (fun rows => ret ([] ++ rows))).
  - apply (processing_loop_adjacent abas rest [] first [] v false
             "No Value" None None [] []);
      [reflexivity | exact Htext | exact Hpn | congruence].
  - exact (bind_ret_r _).
Qed.

Lemma merge_processing_data_adjacent_witness :
  merge_processing_data Samples.answering
    [Samples.journal_row "(7,4,0)" 10; Samples.journal_row "(7,4,0)" 5;
     mkRow "4500013" "Acme Plating" "Bracket" "ANODIZE" "(7,5,0)"
           "PROCESSING-2" (QtyText 3) "-"]
  = reconcile_from Samples.answering (Samples.journal_row "(7,4,0)" 10)
      (qty_value (qty (Samples.journal_row "(7,4,0)" 10))) false
      [Samples.journal_row "(7,4,0)" 5;
       mkRow "4500013" "Acme Plating" "Bracket" "ANODIZE" "(7,5,0)"
             "PROCESSING-2" (QtyText 3) "-"].
Proof.
  apply merge_processing_data_adjacent.
  - repeat constructor.
  - repeat constructor; discriminate.
Defined.

Lemma reconcile_from_distinct (abas : service) (rest : list Row) :
  forall g : Row,
    distinct_keys (g :: rest) ->
    reconcile_from abas g (qty_value (qty g)) false rest
    = enrich_each abas (g :: rest).
Proof.
  induction rest as [| r rest IH]; intros g Hdistinct.
  - cbn [reconcile_from enrich_each]. apply bind_ext. intros e.
    rewrite bind_ret. reflexivity.
  - cbn [distinct_keys] in Hdistinct. destruct Hdistinct as [Hkey Hrest].
    cbn [reconcile_from]. rewrite Hkey.
    change (enrich_each abas (g :: r :: rest))
      with (e <- enrich abas g (qty_value (qty g)) false ;;
            es <- enrich_each abas (r :: rest) ;;
            ret (e :: es)).
    apply bind_ext. intros e. rewrite (IH r Hrest). reflexivity.
Qed.

(** X19.  On journal rows with text quantities, none of which after the
    first has the process "No Value", and of which no two neighbours have
    the same process and location, [merge_processing_data] enriches every
    row on its own, in order, and leaves every quantity as the text it was:
    as many rows come out as went in, when every enrichment answers. *)
Theorem merge_processing_data_distinct :
  forall (abas : service) (first : Row) (rest : list Row),
    Forall (fun r => is_text r = true) (first :: rest) ->
    Forall (fun r => process r <> "No Value") rest ->
    distinct_keys (first :: rest) ->
    merge_processing_data abas (first :: rest)
    = enrich_each abas (first :: rest).
Proof.
  intros abas first rest Htext Hpn Hdistinct.
  rewrite processing_merge_refines by assumption.
  apply reconcile_from_distinct. exact Hdistinct.
Qed.

Lemma merge_processing_data_distinct_witness :
  merge_processing_data Samples.answering
    [Samples.journal_row "(7,4,0)" 10;
     mkRow "4500013" "Acme Plating" "Bracket" "ANODIZE" "(7,5,0)"
           "PROCESSING-2" (QtyText 3) "-"]
  = enrich_each Samples.answering
      [Samples.journal_row "(7,4,0)" 10;
       mkRow "4500013" "Acme Plating" "Bracket" "ANODIZE" "(7,5,0)"
             "PROCESSING-2" (QtyText 3) "-"].
Proof.
  apply merge_processing_data_distinct.
  - repeat constructor.
  - repeat constructor; discriminate.
  - split; [reflexivity | exact I].
Defined.
